(** * Stage components of the group-project XBlock

    A shallow embedding of [group_project_v2/stage_components.py]: the
    submission block ([get_upload], [upload_submission],
    [persist_and_submit_file]), the review question renderer
    ([render_content]) and the feedback display blocks ([question],
    [get_feedback], [student_view]).

    Host services (project API, runtime, stage, storage) are not part of the
    module; the outcome of each call into them is an input of the model, and
    every call is recorded in a trace. Python exceptions are values: a
    computation yields a trace and either an exception or a result. *)

From Stdlib Require Import ZArith String Ascii List Bool Lia SpecFloat DecimalString.
From stdpp Require Import gmap strings list.
Import ListNotations.
Local Open Scope Z_scope.

(** ** Python runtime: values, exceptions, effects *)

Module Py.

(** Exception classes the module tells apart, all of them subclasses of
    [Exception]. [ApiError] carries its [code] attribute; [except Exception]
    catches all of them. What is not an [Exception] ([SystemExit],
    [KeyboardInterrupt], [GeneratorExit]) is outside the model. *)
Inductive exc_class :=
| ApiError (code : Z)
| ValueError
| ParseError
| KeyError
| IndexError
| OtherException (name : string).

(** An exception object. [message] is [None] when the object has no
    [message] attribute ([hasattr(e, "message")] is false). *)
Record exn := Exn { exc_type : exc_class; message : option string }.

Definition set_message (e : exn) (msg : string) : exn :=
  {| exc_type := exc_type e; message := Some msg |}.

(** [isinstance(exception, ApiError)], with the code when it holds. *)
Definition api_error_code (e : exn) : option Z :=
  match exc_type e with
  | ApiError code => Some code
  | _ => None
  end.

Definition is_value_error (e : exn) : bool :=
  match exc_type e with
  | ValueError => true
  | _ => false
  end.

Definition is_parse_error (e : exn) : bool :=
  match exc_type e with
  | ParseError => true
  | _ => false
  end.

(** [except Exception], over the exceptions modelled. *)
Definition is_exception (e : exn) : bool := true.

(** JSON-like data handed to templates, events and responses. [VSelf] is a
    reference to the block that renders. *)
#[local] Unset Elimination Schemes.
Inductive value :=
| VSelf
| VStr (s : string)
| VList (l : list value)
| VDict (d : list (string * value)).
#[local] Set Elimination Schemes.

Inductive level := WARNING | ERROR.

(** What is handed to the logger: a text or an exception object. *)
Inductive log_arg :=
| LogText (s : string)
| LogExn (e : exn).

(** Calls that leave the module. *)
Inductive event :=
| Log (lvl : level) (arg : log_arg)
| SaveFile (file_name upload_id : string) (context : list (string * string))
| Submit (file_name : string)
| Publish (event_name : string) (payload : list (string * value))
| FireFileUploadNotification (service : string)
| CheckSubmissionsAndMarkComplete
| GetNewStageStateData.

(** A computation: the calls made, in order, and how it ended. *)
Record M (A : Type) := Outcome { trace : list event; result : exn + A }.
Arguments Outcome {A} _ _.
Arguments trace {A} _.
Arguments result {A} _.

Definition ret {A} (a : A) : M A := Outcome [] (inr a).

Definition raise {A} (e : exn) : M A := Outcome [] (inl e).

Definition emit (ev : event) : M unit := Outcome [ev] (inr tt).

Definition bind {A B} (m : M A) (k : A -> M B) : M B :=
  match result m with
  | inl e => Outcome (trace m) (inl e)
  | inr a => Outcome (trace m ++ trace (k a)) (result (k a))
  end.

(** [try: m  except <handles> as e: handler e]. *)
Definition try_except {A} (m : M A) (handles : exn -> bool) (handler : exn -> M A) : M A :=
  match result m with
  | inl e =>
      if handles e
      then Outcome (trace m ++ trace (handler e)) (result (handler e))
      else m
  | inr _ => m
  end.

(** An external call: recorded, then it returns or raises as the host decides. *)
Definition call {A} (ev : event) (outcome : exn + A) : M A :=
  Outcome [ev] outcome.

Definition returned {A} (m : M A) : Prop := exists a, result m = inr a.

(** The first call of a computation is [ev]. *)
Definition starts_with {A} (ev : event) (m : M A) : Prop :=
  exists rest, trace m = ev :: rest.

(** [dict.get(key, default)] on a literal written as an association list. *)
Fixpoint assoc (key : string) (d : list (string * string)) : option string :=
  match d with
  | [] => None
  | (k, v) :: d' => if String.eqb k key then Some v else assoc key d'
  end.

(** [str.format] for the replacement fields this module uses: [{}] takes the
    next positional argument, [{name}] the keyword argument [name]. A field
    without a matching argument raises ([IndexError] or [KeyError]). [field]
    is [Some acc] while the scan is between the braces of a field. *)
Fixpoint format_go (tpl : string) (field : option string)
    (args : list string) (kwargs : list (string * string)) : exn + string :=
  match tpl with
  | EmptyString => inr EmptyString
  | String c rest =>
      match field with
      | None =>
          if Ascii.eqb c "{" then format_go rest (Some EmptyString) args kwargs
          else match format_go rest None args kwargs with
               | inr out => inr (String c out)
               | inl e => inl e
               end
      | Some acc =>
          if Ascii.eqb c "}" then
            match acc with
            | EmptyString =>
                match args with
                | [] => inl (Exn IndexError (Some "tuple index out of range"%string))
                | a :: args' =>
                    match format_go rest None args' kwargs with
                    | inr out => inr (a +:+ out)
                    | inl e => inl e
                    end
                end
            | _ =>
                match assoc acc kwargs with
                | None => inl (Exn KeyError (Some acc))
                | Some v =>
                    match format_go rest None args kwargs with
                    | inr out => inr (v +:+ out)
                    | inl e => inl e
                    end
                end
            end
          else format_go rest (Some (acc +:+ String c EmptyString)) args kwargs
      end
  end.

Definition format (tpl : string) (args : list string) (kwargs : list (string * string)) : M string :=
  Outcome [] (format_go tpl None args kwargs).

(** [needle in haystack] for strings. *)
Fixpoint is_prefix (p s : string) : bool :=
  match p, s with
  | EmptyString, _ => true
  | String a p', String b s' => Ascii.eqb a b && is_prefix p' s'
  | String _ _, EmptyString => false
  end.

Fixpoint contains (needle haystack : string) : bool :=
  is_prefix needle haystack ||
  match haystack with
  | EmptyString => false
  | String _ rest => contains needle rest
  end.

End Py.

Declare Scope py_scope.
Delimit Scope py_scope with py.
Notation "x <- m ;; k" := (Py.bind m (fun x => k))
  (at level 100, m at next level, right associativity) : py_scope.
Notation "m ;;; k" := (Py.bind m (fun _ => k))
  (at level 100, right associativity) : py_scope.

(** ** [django.utils.html.escape] *)

Module Html.

Definition double_quote : ascii := "034"%char.

(** [text.replace(c, by)] for a one-character pattern. *)
Fixpoint replace (c : ascii) (by_ : string) (text : string) : string :=
  match text with
  | EmptyString => EmptyString
  | String a rest =>
      if Ascii.eqb a c then by_ +:+ replace c by_ rest
      else String a (replace c by_ rest)
  end.

(** The five replacements, ampersand first, as Django chains them (the
    releases for Python 2, which write the single quote as [&#39;]). *)
Definition escape (text : string) : string :=
  replace "'" "&#39;"
    (replace double_quote "&quot;"
      (replace ">" "&gt;"
        (replace "<" "&lt;"
          (replace "&" "&amp;" text)))).

(** The characters [escape] rewrites. *)
Definition is_special (c : ascii) : bool :=
  Ascii.eqb c "&" || Ascii.eqb c "<" || Ascii.eqb c ">"
  || Ascii.eqb c double_quote || Ascii.eqb c "'".

(** The characters that are markup when left raw. *)
Definition is_markup (c : ascii) : bool :=
  Ascii.eqb c "<" || Ascii.eqb c ">" || Ascii.eqb c double_quote || Ascii.eqb c "'".

Fixpoint all_chars (p : ascii -> bool) (s : string) : bool :=
  match s with
  | EmptyString => true
  | String a rest => p a && all_chars p rest
  end.

Fixpoint any_char (p : ascii -> bool) (s : string) : bool :=
  match s with
  | EmptyString => false
  | String a rest => p a || any_char p rest
  end.

End Html.

(** ** Python floats: [float(str)], [sum], [/] and ["{0:.1f}".format] *)

Module PyFloat.

(** IEEE 754 binary64, as the specification-level floats of the standard
    library: every operation rounds to nearest, ties to even. *)
Definition prec : Z := 53.
Definition emax : Z := 1024.

Definition of_Z (z : Z) : spec_float := binary_normalize prec emax z 0 false.

Definition add : spec_float -> spec_float -> spec_float := SFadd prec emax.

Definition div : spec_float -> spec_float -> spec_float := SFdiv prec emax.

(** [sum(values)]: left to right from the integer [0]. *)
Definition sum (values : list spec_float) : spec_float :=
  fold_left add values (S754_zero false).

(** *** [float(s)] *)

Definition is_space (c : ascii) : bool :=
  Ascii.eqb c " " || Ascii.eqb c "009" || Ascii.eqb c "010"
  || Ascii.eqb c "011" || Ascii.eqb c "012" || Ascii.eqb c "013".

Definition is_digit (c : ascii) : bool :=
  (48 <=? Z.of_N (N_of_ascii c)) && (Z.of_N (N_of_ascii c) <=? 57).

Definition digit_value (c : ascii) : Z := Z.of_N (N_of_ascii c) - 48.

Definition is_upper (c : ascii) : bool :=
  (65 <=? Z.of_N (N_of_ascii c)) && (Z.of_N (N_of_ascii c) <=? 90).

Definition to_lower (c : ascii) : ascii :=
  if is_upper c then ascii_of_N (N_of_ascii c + 32) else c.

Fixpoint lower (s : string) : string :=
  match s with
  | EmptyString => EmptyString
  | String c rest => String (to_lower c) (lower rest)
  end.

Fixpoint lstrip (s : string) : string :=
  match s with
  | EmptyString => EmptyString
  | String c rest => if is_space c then lstrip rest else s
  end.

Fixpoint rstrip (s : string) : string :=
  match s with
  | EmptyString => EmptyString
  | String c rest =>
      match rstrip rest with
      | EmptyString => if is_space c then EmptyString else String c EmptyString
      | rest' => String c rest'
      end
  end.

Definition strip (s : string) : string := rstrip (lstrip s).

(** Where the scan of a decimal literal stands. *)
Inductive phase :=
| PStart      (* nothing read yet *)
| PInt        (* digits of the integer part *)
| PDot        (* a point with no digit before it *)
| PFrac       (* after the point, at least one digit so far on either side *)
| PExp        (* just after [e] or [E] *)
| PExpSign    (* after the sign of the exponent *)
| PExpDigits. (* digits of the exponent *)

(** The literal read so far is [mant * 10 ^ (exponent - nfrac)], where
    [mant] is written with [ndigits] digits. *)
Record scan := Scan {
  ph : phase;
  mant : Z;
  ndigits : Z;
  nfrac : Z;
  exp_neg : bool;
  exponent : Z
}.

Definition scan_start : scan := Scan PStart 0 0 0 false 0.

Definition is_exp_mark (c : ascii) : bool := Ascii.eqb c "e" || Ascii.eqb c "E".

Definition step (st : scan) (c : ascii) : option scan :=
  let '(Scan p m nd nf en ex) := st in
  match p with
  | PStart =>
      if is_digit c then Some (Scan PInt (digit_value c) 1 0 en ex)
      else if Ascii.eqb c "." then Some (Scan PDot m nd nf en ex)
      else None
  | PInt =>
      if is_digit c then Some (Scan PInt (m * 10 + digit_value c) (nd + 1) nf en ex)
      else if Ascii.eqb c "." then Some (Scan PFrac m nd nf en ex)
      else if is_exp_mark c then Some (Scan PExp m nd nf en ex)
      else None
  | PDot =>
      if is_digit c then Some (Scan PFrac (digit_value c) 1 1 en ex)
      else None
  | PFrac =>
      if is_digit c then Some (Scan PFrac (m * 10 + digit_value c) (nd + 1) (nf + 1) en ex)
      else if is_exp_mark c then Some (Scan PExp m nd nf en ex)
      else None
  | PExp =>
      if is_digit c then Some (Scan PExpDigits m nd nf en (digit_value c))
      else if Ascii.eqb c "+" then Some (Scan PExpSign m nd nf false ex)
      else if Ascii.eqb c "-" then Some (Scan PExpSign m nd nf true ex)
      else None
  | PExpSign =>
      if is_digit c then Some (Scan PExpDigits m nd nf en (digit_value c))
      else None
  | PExpDigits =>
      if is_digit c then Some (Scan PExpDigits m nd nf en (ex * 10 + digit_value c))
      else None
  end.

Fixpoint run (st : scan) (s : string) : option scan :=
  match s with
  | EmptyString => Some st
  | String c rest =>
      match step st c with
      | Some st' => run st' rest
      | None => None
      end
  end.

Definition accepting (p : phase) : bool :=
  match p with
  | PInt | PFrac | PExpDigits => true
  | _ => false
  end.

(** The binary64 nearest to [m * 10 ^ e], for [m > 0]. Beyond the two
    cut-offs the result is decided by magnitude alone: [m * 10 ^ e >= 10 ^ 310]
    overflows, and [m * 10 ^ e < 10 ^ (nd + e) <= 10 ^ (-331)] rounds to zero. *)
Definition decimal_to_float (neg : bool) (m nd e : Z) : spec_float :=
  if m =? 0 then S754_zero neg
  else if 309 <? e then S754_infinity neg
  else if nd + e <? -330 then S754_zero neg
  else if 0 <=? e then
    binary_normalize prec emax ((if neg then -1 else 1) * (m * 10 ^ e)) 0 neg
  else
    let '(q, e', l) := SFdiv_core_binary prec emax m 0 (10 ^ (- e)) 0 in
    binary_round_aux prec emax neg q e' l.

Definition scan_value (neg : bool) (st : scan) : spec_float :=
  decimal_to_float neg (mant st) (ndigits st)
    ((if exp_neg st then - exponent st else exponent st) - nfrac st).

Definition split_sign (s : string) : bool * string :=
  match s with
  | String c rest =>
      if Ascii.eqb c "-" then (true, rest)
      else if Ascii.eqb c "+" then (false, rest)
      else (false, s)
  | EmptyString => (false, s)
  end.

(** [float(s)] on a byte string; [None] is [ValueError]. *)
Definition float_of_str (s : string) : option spec_float :=
  let '(neg, body) := split_sign (strip s) in
  let word := lower body in
  if String.eqb word "inf" || String.eqb word "infinity" then Some (S754_infinity neg)
  else if String.eqb word "nan" then Some S754_nan
  else
    match run scan_start body with
    | Some st => if accepting (ph st) then Some (scan_value neg st) else None
    | None => None
    end.

(** The characters a literal accepted by [float] is made of: blanks,
    digits, signs, the point and letters. *)
Definition is_letter (c : ascii) : bool :=
  is_upper c || ((97 <=? Z.of_N (N_of_ascii c)) && (Z.of_N (N_of_ascii c) <=? 122)).

Definition float_char (c : ascii) : bool :=
  is_space c || is_digit c || Ascii.eqb c "+" || Ascii.eqb c "-" || Ascii.eqb c "."
  || is_letter c.

(** A character no float literal contains. *)
Definition foreign (c : ascii) : bool := negb (float_char c).

(** *** ["{0:.1f}".format(x)] *)

Definition string_of_Z (z : Z) : string := NilZero.string_of_uint (N.to_uint (Z.to_N z)).

(** The integer nearest to [10 * m * 2 ^ e], ties to even. *)
Definition round_tenths (m : positive) (e : Z) : Z :=
  if 0 <=? e then 10 * Z.pos m * 2 ^ e
  else
    let d := 2 ^ (- e) in
    let q := (10 * Z.pos m) / d in
    let r := (10 * Z.pos m) mod d in
    match 2 * r ?= d with
    | Lt => q
    | Gt => q + 1
    | Eq => if Z.even q then q else q + 1
    end.

Definition sign_text (neg : bool) : string := if neg then "-" else "".

Definition format_1f (x : spec_float) : string :=
  match x with
  | S754_nan => "nan"
  | S754_infinity s => sign_text s +:+ "inf"
  | S754_zero s => sign_text s +:+ "0.0"
  | S754_finite s m e =>
      let t := round_tenths m e in
      sign_text s +:+ string_of_Z (t / 10) +:+ "." +:+ string_of_Z (t mod 10)
  end.

(** *** [utils.mean] *)

(** [[float(v) for v in value_array]]: the first value that does not
    convert raises [ValueError]. *)
Fixpoint numeric_values (value_array : list string) : Py.exn + list spec_float :=
  match value_array with
  | [] => inr []
  | v :: rest =>
      match float_of_str v with
      | None =>
          inl (Py.Exn Py.ValueError (Some ("could not convert string to float: " +:+ v)))
      | Some x =>
          match numeric_values rest with
          | inl e => inl e
          | inr xs => inr (x :: xs)
          end
      end
  end.

(** Modelled from the spec: the helper [mean] of [group_project_v2.utils]
    is imported by the module but is not among the sources. The spec has it
    coerce every value to a number and take the arithmetic mean; any value
    that does not coerce makes the whole mean not applicable, and so does an
    empty list (the mean of no values is undefined, not zero). Both are
    raised as [ValueError], the one exception [student_view] handles. *)
Definition mean (value_array : list string) : Py.M spec_float :=
  match numeric_values value_array with
  | inl e => Py.raise e
  | inr [] => Py.raise (Py.Exn Py.ValueError (Some "mean of an empty list"))
  | inr xs => Py.ret (div (sum xs) (of_Z (Z.of_nat (length xs))))
  end.

(** The arithmetic mean of a list of numbers. *)
Definition arithmetic_mean (values : list spec_float) : spec_float :=
  div (sum values) (of_Z (Z.of_nat (length values))).

End PyFloat.

(** ** [GroupProjectSubmissionXBlock] *)

Module Submission.

(** An entry of the host's submission map. [user_details] is the one key
    read with [.get]; it may be missing. *)
Record submission_data := {
  document_url : string;
  document_filename : string;
  modified : string;
  user_details : option Py.value
}.

(** The named tuple [SubmissionUpload]. *)
Record SubmissionUpload := {
  location : string;
  file_name : string;
  submission_date : string;
  upload_user_details : option Py.value
}.

(** The settings of the block. *)
Record block := {
  display_name : string;
  description : string;
  upload_id : string
}.

Definition STAGE_NOT_OPEN_TEMPLATE : string := "Can't {action} as stage is not yet opened.".
Definition STAGE_CLOSED_TEMPLATE : string := "Can't {action} as stage is closed.".
Definition SUCCESSFUL_UPLOAD_TITLE : string := "Upload complete.".
Definition FAILED_UPLOAD_TITLE : string := "Upload failed.".
Definition SUCCESSFUL_UPLOAD_MESSAGE_TPL : string :=
  "Your deliverable have been successfully uploaded. You can attach an updated version of the "
  +:+ "deliverable by clicking the <span class='icon {icon}'></span> icon at any time before the deadline passes.".
Definition FAILED_UPLOAD_MESSAGE_TPL : string := "Error uploading file: {error_goes_here}".
Definition SUBMISSION_RECEIVED_EVENT : string := "activity.received_submission".

Section GetUpload.

(** [utils.build_date_field] and [utils.format_date] are not among the
    sources; they are taken as given. *)
Variable date : Type.
Variable build_date_field : string -> date.
Variable format_date : date -> string.

(** [project_api] answers [get_latest_workgroup_submissions_by_id]. *)
Definition get_upload (self : block)
    (project_api : string -> gmap string submission_data) (group_id : string)
    : option SubmissionUpload :=
  let submission_map := project_api group_id in
  let submission_data := submission_map !! upload_id self in
  match submission_data with
  | None => None
  | Some submission_data =>
      Some {| location := document_url submission_data;
              file_name := document_filename submission_data;
              submission_date := format_date (build_date_field (modified submission_data));
              upload_user_details := user_details submission_data |}
  end.

End GetUpload.

Record activity := {
  user_id : string;
  workgroup_id : string;
  course_id : string;
  content_id : string
}.

(** What the block reads from its parent stage. *)
Record stage := {
  available_now : bool;
  is_open : bool;
  is_group_member : bool;
  STAGE_ACTION : string;
  stage_activity : activity
}.

(** An uploaded file stream; [name] is all the block reads from it. *)
Record stream := { name : string }.

(** [upload_file.UploadFile]; [submission_id] and [file_url] are filled in
    by [submit]. *)
Record UploadFile := {
  file : stream;
  submission_id : string;
  file_url : string
}.

(** How each call into the host, made at most once per request, ends. *)
Record host := {
  save_file : Py.exn + unit;
  submit : Py.exn + (string * string);
  publish : Py.exn + unit;
  notifications_service : option string;
  fire_file_upload_notification : Py.exn + unit;
  check_submissions_and_mark_complete : Py.exn + unit;
  get_new_stage_state_data : Py.exn + Py.value
}.

Definition original_message (e : Py.exn) : string :=
  match Py.message e with
  | Some m => m
  | None => ""
  end.

Definition submitted (uploaded_file : UploadFile) (r : Py.exn + (string * string))
    : Py.exn + UploadFile :=
  match r with
  | inl e => inl e
  | inr (sid, url) =>
      inr {| file := file uploaded_file; submission_id := sid; file_url := url |}
  end.

(** The payload of the analytics event. *)
Definition submission_payload (activity : activity) (uploaded_file : UploadFile)
    : list (string * Py.value) :=
  [("submission_id", Py.VStr (submission_id uploaded_file));
   ("filename", Py.VStr (name (file uploaded_file)));
   ("content_id", Py.VStr (content_id activity));
   ("group_id", Py.VStr (workgroup_id activity));
   ("user_id", Py.VStr (user_id activity))].

(** The context dictionary handed to [UploadFile]; its fourth entry, the
    project API object, is left out. *)
Definition upload_context (activity : activity) : list (string * string) :=
  [("user_id", user_id activity);
   ("group_id", workgroup_id activity);
   ("course_id", course_id activity)].

Local Open Scope py_scope.

Definition persist_and_submit_file (self : block) (h : host) (activity : activity)
    (context : list (string * string)) (file_stream : stream) : Py.M UploadFile :=
  let uploaded_file := {| file := file_stream; submission_id := ""; file_url := "" |} in
  (* Save the files first *)
  Py.try_except
    (Py.call (Py.SaveFile (name (file uploaded_file)) (upload_id self) context) (save_file h))
    Py.is_exception
    (fun save_file_error =>
       msg <- Py.format "Error storing file {} - {}"
                [name (file uploaded_file); original_message save_file_error] [] ;;
       Py.raise (Py.set_message save_file_error msg)) ;;;
  (* It have been saved... note the submission *)
  uploaded_file <-
    Py.try_except
      (uploaded_file <- Py.call (Py.Submit (name (file uploaded_file)))
                                (submitted uploaded_file (submit h)) ;;
       Py.call (Py.Publish SUBMISSION_RECEIVED_EVENT
                  (submission_payload activity uploaded_file))
               (publish h) ;;;
       Py.ret uploaded_file)
      Py.is_exception
      (fun save_record_error =>
         msg <- Py.format "Error recording file information {} - {}"
                  [name (file uploaded_file); original_message save_record_error] [] ;;
         Py.raise (Py.set_message save_record_error msg)) ;;
  match notifications_service h with
  | Some service =>
      Py.call (Py.FireFileUploadNotification service) (fire_file_upload_notification h)
  | None => Py.ret tt
  end ;;;
  Py.ret uploaded_file.

(** [request.params[self.upload_id].file]; a request without the field
    raises [KeyError], whose [message] is the key, as in Python 2, which the
    module is written for. *)
Definition request_file (self : block) (params : gmap string stream) : Py.M stream :=
  match params !! upload_id self with
  | Some f => Py.ret f
  | None => Py.raise (Py.Exn Py.KeyError (Some (upload_id self)))
  end.

(** The relay step: the file of the request is handed to
    [persist_and_submit_file]. *)
Definition relay (self : block) (st : stage) (h : host) (params : gmap string stream)
    : Py.M UploadFile :=
  let target_activity := stage_activity st in
  let context := upload_context target_activity in
  file_stream <- request_file self params ;;
  persist_and_submit_file self h target_activity context file_stream.

(** The completion step: [check_submissions_and_mark_complete], then
    [get_new_stage_state_data]. *)
Definition completion (h : host) : Py.M Py.value :=
  Py.call Py.CheckSubmissionsAndMarkComplete (check_submissions_and_mark_complete h) ;;;
  Py.call Py.GetNewStageStateData (get_new_stage_state_data h).

(** The body of the [try] statement of [upload_submission]. The body assigns
    to [response_data] and the handler reads it, so the body yields the
    dictionary as it stands when the body is left, and the exception when it
    is left by one. *)
Definition upload_try (self : block) (st : stage) (h : host) (params : gmap string stream)
    (response_data : gmap string Py.value)
    : list Py.event * gmap string Py.value * option Py.exn :=
  match Py.result (relay self st h params) with
  | inl exception => (Py.trace (relay self st h params), response_data, Some exception)
  | inr uploaded_file =>
      let response_data :=
        <["submissions" := Py.VDict [(submission_id uploaded_file,
                                      Py.VStr (file_url uploaded_file))]]> response_data in
      match Py.result (completion h) with
      | inl exception =>
          (Py.trace (relay self st h params) ++ Py.trace (completion h),
           response_data, Some exception)
      | inr new_state =>
          (Py.trace (relay self st h params) ++ Py.trace (completion h),
           <["new_stage_states" := Py.VList [new_state]]> response_data, None)
      end
  end.

(** [failure_code] in the handler: 500, or the code of an [ApiError]. *)
Definition failure_code_of (exception : Py.exn) : Z :=
  match Py.api_error_code exception with
  | Some code => code
  | None => 500
  end.

(** [getattr(exception, "message", "Unknown error")]. *)
Definition error_message_of (exception : Py.exn) : string :=
  match Py.message exception with
  | Some m => m
  | None => "Unknown error"
  end.

(** The last branch of [upload_submission]: the relay, the completion
    check and, when either raises, the failure report. *)
Definition upload_relay (self : block) (st : stage) (h : host)
    (params : gmap string stream) : Py.M (gmap string Py.value * Z) :=
  msg <- Py.format SUCCESSFUL_UPLOAD_MESSAGE_TPL [] [("icon", "fa fa-paperclip")] ;;
  let response_data : gmap string Py.value :=
    <["message" := Py.VStr msg]> {["title" := Py.VStr SUCCESSFUL_UPLOAD_TITLE]} in
  let '(calls, response_data, raised) := upload_try self st h params response_data in
  Py.Outcome calls (inr tt) ;;;
  match raised with
  | None => Py.ret (response_data, 0)
  | Some exception =>
      Py.emit (Py.Log Py.ERROR (Py.LogExn exception)) ;;;
      let failure_code := failure_code_of exception in
      let error_message := error_message_of exception in
      msg <- Py.format FAILED_UPLOAD_MESSAGE_TPL [] [("error_goes_here", error_message)] ;;
      Py.ret (<["message" := Py.VStr msg]>
                (<["title" := Py.VStr FAILED_UPLOAD_TITLE]> response_data),
              failure_code)
  end.

(** [upload_submission] up to the construction of the response: the
    dictionary that becomes the body, and [failure_code]. *)
Definition upload_submission_data (self : block) (st : stage) (h : host)
    (params : gmap string stream) : Py.M (gmap string Py.value * Z) :=
  if negb (available_now st) then
    let template :=
      if negb (is_open st) then STAGE_NOT_OPEN_TEMPLATE else STAGE_CLOSED_TEMPLATE in
    msg <- Py.format template [] [("action", STAGE_ACTION st)] ;;
    Py.ret (<["message" := Py.VStr msg]> {["result" := Py.VStr "error"]}, 422)
  else if negb (is_group_member st) then
    Py.ret (<["message" := Py.VStr "Only group members can upload files"]>
              {["result" := Py.VStr "error"]}, 403)
  else upload_relay self st h params.

(** The [webob] response: the dictionary serialised as the body, and the
    status. *)
Record response := { body : gmap string Py.value; status_code : Z }.

(** The status of the response for a given [failure_code]: it stays at the
    default 200 unless [failure_code] is true, that is, not zero. *)
Definition http_status (failure_code : Z) : Z :=
  if failure_code =? 0 then 200 else failure_code.

Definition upload_submission (self : block) (st : stage) (h : host)
    (params : gmap string stream) : Py.M response :=
  r <- upload_submission_data self st h params ;;
  let '(response_data, failure_code) := r in
  Py.ret {| body := response_data; status_code := http_status failure_code |}.

(** [uploading_allowed] of [submissions_view]. *)
Definition uploading_allowed (st : stage) : bool :=
  available_now st && is_group_member st.

Definition is_publish (ev : Py.event) : bool :=
  match ev with
  | Py.Publish _ _ => true
  | _ => false
  end.

Definition is_notification (ev : Py.event) : bool :=
  match ev with
  | Py.FireFileUploadNotification _ => true
  | _ => false
  end.

(** The dictionaries the handler builds, named for the statements below:
    the success report, the report with the uploaded file recorded, and the
    report after [response_data.update] in the handler. *)
Definition SUCCESS_MESSAGE : string :=
  "Your deliverable have been successfully uploaded. You can attach an updated version of the "
  +:+ "deliverable by clicking the <span class='icon fa fa-paperclip'></span> icon at any time before the deadline passes.".

Definition success_data : gmap string Py.value :=
  <["message" := Py.VStr SUCCESS_MESSAGE]> {["title" := Py.VStr SUCCESSFUL_UPLOAD_TITLE]}.

Definition with_submission (uploaded_file : UploadFile)
    (response_data : gmap string Py.value) : gmap string Py.value :=
  <["submissions" := Py.VDict [(submission_id uploaded_file,
                                Py.VStr (file_url uploaded_file))]]> response_data.

Definition failure_data (exception : Py.exn)
    (response_data : gmap string Py.value) : gmap string Py.value :=
  <["message" := Py.VStr ("Error uploading file: " +:+ error_message_of exception)]>
    (<["title" := Py.VStr FAILED_UPLOAD_TITLE]> response_data).

End Submission.

(** ** [GroupProjectReviewQuestionXBlock] *)

Module ReviewQuestion.

(** The fields of the block. *)
Record block := {
  question_id : string;
  title : string;
  assessment_title : option string;
  question_content : string;
  required : bool;
  grade : bool;
  single_line : bool;
  question_css_classes : option string
}.

(** An [ElementTree] element: its tag, its attribute dictionary, and the
    text and children, which [render_content] leaves alone. *)
Record element := {
  tag : string;
  attrib : gmap string string;
  inner : string
}.

Definition set (node : element) (key val : string) : element :=
  {| tag := tag node; attrib := <[key := val]> (attrib node); inner := inner node |}.

Definition get (node : element) (key : string) : option string := attrib node !! key.

(** [sep.join(parts)]. *)
Fixpoint join (sep : string) (parts : list string) : string :=
  match parts with
  | [] => ""
  | [p] => p
  | p :: rest => p +:+ sep +:+ join sep rest
  end.

(** Truth value of an optional string: [None] and [""] are false. *)
Definition truthy (s : option string) : bool :=
  match s with
  | Some (String _ _) => true
  | _ => false
  end.

Definition message_tpl : string :=
  "Exception when parsing question content for question {question_id}. Content is [{content}].".

Section RenderContent.

(** [ElementTree.fromstring] is the XML parser of the standard library and
    [utils.outer_html] is not among the sources; both are taken as given. The
    parser returns the root element or raises. *)
Variable fromstring : string -> Py.exn + element.
Variable outer_html : element -> string.

Local Open Scope py_scope.

Definition render_content (self : block) (stage_is_closed : bool) : Py.M string :=
  match fromstring (question_content self) with
  | inl e =>
      if Py.is_parse_error e then
        _ <- Py.format message_tpl []
               [("question_id", question_id self); ("content", question_content self)] ;;
        Py.emit (Py.Log Py.ERROR (Py.LogText message_tpl)) ;;;
        Py.ret ""
      else Py.raise e
  | inr answer_node =>
      let answer_node := set answer_node "name" (question_id self) in
      let answer_node := set answer_node "id" (question_id self) in
      let current_class := get answer_node "class" in
      let answer_classes := ["answer"] in
      let answer_classes :=
        if truthy current_class
        then answer_classes ++ [default "" current_class]
        else answer_classes in
      let answer_classes :=
        if single_line self then answer_classes ++ ["side"] else answer_classes in
      let '(answer_node, answer_classes) :=
        if stage_is_closed
        then (set answer_node "disabled" "disabled", answer_classes)
        else (answer_node, answer_classes ++ ["editable"]) in
      let answer_node := set answer_node "class" (join " " answer_classes) in
      Py.ret (outer_html answer_node)
  end.

End RenderContent.

(** What [message_tpl.format(...)] evaluates to. *)
Definition formatted_message (self : block) : string :=
  "Exception when parsing question content for question " +:+ question_id self
  +:+ ". Content is [" +:+ question_content self +:+ "].".

End ReviewQuestion.

(** ** [GroupProjectBaseFeedbackDisplayXBlock] and its two subclasses *)

Module FeedbackDisplay.

(** A review item of the host: the keys [question] and [answer]. *)
Record item := { question : string; answer : string }.

Inductive kind := TeamEvaluation | GradeEvaluation.

(** The fields of the block; [question_id] defaults to [None]. *)
Record block := {
  category : kind;
  question_id : option string;
  show_mean : bool
}.

(** The review lists of the project API. *)
Record project_api := {
  get_user_peer_review_items : list item;
  get_workgroup_review_items_for_group : list item
}.

(** [text == self.question_id]: equality of strings, false against [None]. *)
Definition eq_question_id (text : string) (question_id : option string) : bool :=
  match question_id with
  | Some q => String.eqb text q
  | None => false
  end.

(** The list each subclass asks the project API for. *)
Definition review_items (k : kind) (api : project_api) : list item :=
  match k with
  | TeamEvaluation => get_user_peer_review_items api
  | GradeEvaluation => get_workgroup_review_items_for_group api
  end.

Definition get_feedback (self : block) (api : project_api) : list item :=
  let all_feedback := review_items (category self) api in
  List.filter (fun item => eq_question_id (question item) (question_id self)) all_feedback.

Local Open Scope py_scope.

(** The lazy property [question]. *)
Definition selected_question (self : block) (activity_questions : list ReviewQuestion.block)
    : Py.M (option ReviewQuestion.block) :=
  let matching_questions :=
    List.filter (fun q => eq_question_id (ReviewQuestion.question_id q) (question_id self))
      activity_questions in
  if (1 <? length matching_questions)%nat then
    Py.raise (Py.Exn Py.ValueError (Some "Question ID is not unique"))
  else
    match matching_questions with
    | [] => Py.ret None
    | q :: _ => Py.ret (Some q)
    end.

(** A fragment: the templates added to it, each with its context. *)
Record fragment := { content : list (string * gmap string Py.value) }.

Definition NOT_APPLICABLE : string := "N/A".

(** The [for] loop that fills [feedback]. *)
Definition escaped_answers (raw_feedback : list item) : list string :=
  fold_left (fun feedback item => feedback ++ [Html.escape (answer item)]) raw_feedback [].

(** The body of [student_view]. The decorator around it belongs to [utils],
    which is not among the sources, and is left out. *)
Definition student_view (self : block) (activity_questions : list ReviewQuestion.block)
    (api : project_api) (context : gmap string Py.value) : Py.M fragment :=
  selected <- selected_question self activity_questions ;;
  match selected with
  | None => Py.raise (Py.Exn Py.ValueError (Some "No question selected"))
  | Some question =>
      let raw_feedback := get_feedback self api in
      let feedback := escaped_answers raw_feedback in
      let title :=
        if ReviewQuestion.truthy (ReviewQuestion.assessment_title question)
        then default "" (ReviewQuestion.assessment_title question)
        else ReviewQuestion.title question in
      let render_context : gmap string Py.value :=
        <["feedback" := Py.VList (map Py.VStr feedback)]>
          (<["question_title" := Py.VStr title]> {["assessment" := Py.VSelf]}) in
      render_context <-
        (if show_mean self then
           Py.try_except
             (m <- PyFloat.mean feedback ;;
              Py.ret (<["mean" := Py.VStr (PyFloat.format_1f m)]> render_context))
             Py.is_value_error
             (fun exc =>
                Py.emit (Py.Log Py.WARNING (Py.LogExn exc)) ;;;
                Py.ret (<["mean" := Py.VStr NOT_APPLICABLE]> render_context))
         else Py.ret render_context) ;;
      (* render_context.update(context) *)
      let render_context := context ∪ render_context in
      Py.ret {| content :=
                  [("templates/html/components/review_assessment.html", render_context)] |}
  end.

(** Names for the statements below: the title shown, the context before
    the mean is added, and the fragment of the one template. *)
Definition question_title (question : ReviewQuestion.block) : string :=
  if ReviewQuestion.truthy (ReviewQuestion.assessment_title question)
  then default "" (ReviewQuestion.assessment_title question)
  else ReviewQuestion.title question.

Definition base_context (question : ReviewQuestion.block) (feedback : list string)
    : gmap string Py.value :=
  <["feedback" := Py.VList (map Py.VStr feedback)]>
    (<["question_title" := Py.VStr (question_title question)]> {["assessment" := Py.VSelf]}).

Definition page (render_context : gmap string Py.value) : fragment :=
  {| content := [("templates/html/components/review_assessment.html", render_context)] |}.

Definition empty_mean_error : Py.exn :=
  Py.Exn Py.ValueError (Some "mean of an empty list").

(** The raw answers of the items kept for the block's question. *)
Definition kept_answers (self : block) (api : project_api) : list string :=
  map answer (get_feedback self api).

(** The calls made and the context left by the [if self.show_mean] block,
    by what the conversion of the displayed answers gives. *)
Definition mean_context (feedback : list string) (render_context : gmap string Py.value)
    : list Py.event * gmap string Py.value :=
  match PyFloat.numeric_values feedback with
  | inl e =>
      ([Py.Log Py.WARNING (Py.LogExn e)],
       <["mean" := Py.VStr NOT_APPLICABLE]> render_context)
  | inr [] =>
      ([Py.Log Py.WARNING (Py.LogExn empty_mean_error)],
       <["mean" := Py.VStr NOT_APPLICABLE]> render_context)
  | inr values =>
      ([], <["mean" := Py.VStr (PyFloat.format_1f (PyFloat.arithmetic_mean values))]>
             render_context)
  end.

(** What the template is given under [key]. *)
Definition rendered (m : Py.M fragment) (key : string) : option Py.value :=
  match Py.result m with
  | inr {| content := [(_, render_context)] |} => render_context !! key
  | _ => None
  end.

End FeedbackDisplay.

(** ** Sample data *)

Module Sample.

Import Submission.

Definition essay : block :=
  {| display_name := "Essay"; description := ""; upload_id := "doc1" |}.

Definition team_activity : activity :=
  {| user_id := "7"; workgroup_id := "12"; course_id := "course-1"; content_id := "activity-1" |}.

Definition open_stage : stage :=
  {| available_now := true; is_open := true; is_group_member := true;
     STAGE_ACTION := "upload submission"; stage_activity := team_activity |}.

Definition not_open_stage : stage :=
  {| available_now := false; is_open := false; is_group_member := true;
     STAGE_ACTION := "upload submission"; stage_activity := team_activity |}.

Definition closed_stage : stage :=
  {| available_now := false; is_open := true; is_group_member := true;
     STAGE_ACTION := "upload submission"; stage_activity := team_activity |}.

Definition outsider_stage : stage :=
  {| available_now := true; is_open := true; is_group_member := false;
     STAGE_ACTION := "upload submission"; stage_activity := team_activity |}.

Definition report : stream := {| name := "report.pdf" |}.

Definition one_file : gmap string stream := {["doc1" := report]}.

(** A host on which every call succeeds and notifications are available. *)
Definition good_host : host :=
  {| save_file := inr tt;
     submit := inr ("s-41", "http://x/report.pdf");
     publish := inr tt;
     notifications_service := Some "notifications";
     fire_file_upload_notification := inr tt;
     check_submissions_and_mark_complete := inr tt;
     get_new_stage_state_data := inr (Py.VStr "completed") |}.

(** The same host without the notifications service. *)
Definition quiet_host : host :=
  {| save_file := inr tt;
     submit := inr ("s-41", "http://x/report.pdf");
     publish := inr tt;
     notifications_service := None;
     fire_file_upload_notification := inr tt;
     check_submissions_and_mark_complete := inr tt;
     get_new_stage_state_data := inr (Py.VStr "completed") |}.

Definition sink_down : Py.exn :=
  Py.Exn (Py.OtherException "IOError") (Some "event sink unreachable").

(** Saving and recording succeed, the analytics sink raises. *)
Definition publish_down_host : host :=
  {| save_file := inr tt;
     submit := inr ("s-41", "http://x/report.pdf");
     publish := inl sink_down;
     notifications_service := Some "notifications";
     fire_file_upload_notification := inr tt;
     check_submissions_and_mark_complete := inr tt;
     get_new_stage_state_data := inr (Py.VStr "completed") |}.

Definition disk_full : Py.exn :=
  Py.Exn (Py.OtherException "IOError") (Some "disk full").

Definition storage_down_host : host :=
  {| save_file := inl disk_full;
     submit := inr ("s-41", "http://x/report.pdf");
     publish := inr tt;
     notifications_service := Some "notifications";
     fire_file_upload_notification := inr tt;
     check_submissions_and_mark_complete := inr tt;
     get_new_stage_state_data := inr (Py.VStr "completed") |}.

Definition api_not_found : Py.exn :=
  Py.Exn (Py.ApiError 404) (Some "Not Found").

Definition api_down_host : host :=
  {| save_file := inr tt;
     submit := inl api_not_found;
     publish := inr tt;
     notifications_service := Some "notifications";
     fire_file_upload_notification := inr tt;
     check_submissions_and_mark_complete := inr tt;
     get_new_stage_state_data := inr (Py.VStr "completed") |}.

(** The upload goes through, marking the stage complete raises. *)
Definition completion_down_host : host :=
  {| save_file := inr tt;
     submit := inr ("s-41", "http://x/report.pdf");
     publish := inr tt;
     notifications_service := None;
     fire_file_upload_notification := inr tt;
     check_submissions_and_mark_complete := inl api_not_found;
     get_new_stage_state_data := inr (Py.VStr "completed") |}.

Definition stored_report : UploadFile :=
  {| file := report; submission_id := "s-41"; file_url := "http://x/report.pdf" |}.

(** Stand-ins for the date helpers: the date is shown as it is stored. *)
Definition keep_date (text : string) : string := text.
Definition show_date (d : string) : string := d.

Definition appendix : block :=
  {| display_name := "Appendix"; description := ""; upload_id := "doc2" |}.

(** The submission map of the spec's example. *)
Definition submission_map : gmap string submission_data :=
  {["doc1" := {| document_url := "http://x/f.pdf"; document_filename := "f.pdf";
                 modified := "2015-06-01T10:00:00Z"; user_details := None |}]}.

(** A review question whose content is not well-formed XML, and one whose
    content is. *)
Definition broken_question : ReviewQuestion.block :=
  {| ReviewQuestion.question_id := "q1";
     ReviewQuestion.title := "How did the team do?";
     ReviewQuestion.assessment_title := None;
     ReviewQuestion.question_content := "<input";
     ReviewQuestion.required := false;
     ReviewQuestion.grade := false;
     ReviewQuestion.single_line := false;
     ReviewQuestion.question_css_classes := None |}.

Definition score_question : ReviewQuestion.block :=
  {| ReviewQuestion.question_id := "q1";
     ReviewQuestion.title := "How did the team do?";
     ReviewQuestion.assessment_title := None;
     ReviewQuestion.question_content := "<input type='text'/>";
     ReviewQuestion.required := false;
     ReviewQuestion.grade := true;
     ReviewQuestion.single_line := false;
     ReviewQuestion.question_css_classes := None |}.

Definition text_input : ReviewQuestion.element :=
  {| ReviewQuestion.tag := "input";
     ReviewQuestion.attrib := {["type" := "text"]};
     ReviewQuestion.inner := "" |}.

Definition syntax_error : Py.exn := Py.Exn Py.ParseError (Some "unclosed token: line 1, column 0").

(** A stand-in for the XML parser that knows one document. *)
Definition one_document_parser (text : string) : Py.exn + ReviewQuestion.element :=
  if String.eqb text "<input type='text'/>" then inr text_input else inl syntax_error.

(** A stand-in for [outer_html] that prints the tag and the class. *)
Definition tag_only (node : ReviewQuestion.element) : string :=
  "<" +:+ ReviewQuestion.tag node +:+ " class='"
  +:+ default "" (ReviewQuestion.get node "class") +:+ "'/>".

(** A feedback display on question [q1] with the mean shown. *)
Definition team_display : FeedbackDisplay.block :=
  {| FeedbackDisplay.category := FeedbackDisplay.TeamEvaluation;
     FeedbackDisplay.question_id := Some "q1";
     FeedbackDisplay.show_mean := true |}.

Definition review (q a : string) : FeedbackDisplay.item :=
  {| FeedbackDisplay.question := q; FeedbackDisplay.answer := a |}.

(** The review lists of the spec's examples. *)
Definition numeric_reviews : FeedbackDisplay.project_api :=
  {| FeedbackDisplay.get_user_peer_review_items :=
       [review "q1" "3"; review "q1" "5"; review "q2" "1"];
     FeedbackDisplay.get_workgroup_review_items_for_group := [] |}.

Definition mixed_reviews : FeedbackDisplay.project_api :=
  {| FeedbackDisplay.get_user_peer_review_items :=
       [review "q1" "3"; review "q1" "n/a"; review "q2" "1"];
     FeedbackDisplay.get_workgroup_review_items_for_group := [] |}.

Definition other_reviews : FeedbackDisplay.project_api :=
  {| FeedbackDisplay.get_user_peer_review_items := [review "q2" "1"; review "Q1" "4"];
     FeedbackDisplay.get_workgroup_review_items_for_group := [] |}.

(** The view is called with an empty context. *)
Definition no_context : gmap string Py.value := ∅.

Definition markup_reviews : FeedbackDisplay.project_api :=
  {| FeedbackDisplay.get_user_peer_review_items :=
       [review "q1" "<b>good</b> & fast"; review "Q1" "4"; review "q1" "5"];
     FeedbackDisplay.get_workgroup_review_items_for_group := [] |}.

End Sample.

(** ** Fragments and template contexts of the remaining views *)

Module View.

(** An entry of [fake_peers] or of the stage's team, and of [fake_groups]
    or of the stage's review groups. *)
Record peer := { peer_id : Z; username : string }.
Record group := { group_id : Z }.

(** What these views hand to their templates. *)
Inductive tval :=
| TSelf
| TBool (b : bool)
| TStr (s : string)
| TUpload (u : option Submission.SubmissionUpload)
| TPeers (l : list peer)
| TGroups (l : list group).

(** What [add_content] receives: a rendered template, kept as its name and
    context, or a plain text. *)
Inductive piece :=
| Template (name : string) (render_context : gmap string tval)
| Text (s : string).

Record fragment := {
  content : list piece;
  css_urls : list string;
  js_urls : list string;
  js_init : list string
}.

Definition Fragment : fragment :=
  {| content := []; css_urls := []; js_urls := []; js_init := [] |}.

Definition add_content (p : piece) (f : fragment) : fragment :=
  {| content := content f ++ [p]; css_urls := css_urls f;
     js_urls := js_urls f; js_init := js_init f |}.

Definition add_css_url (url : string) (f : fragment) : fragment :=
  {| content := content f; css_urls := css_urls f ++ [url];
     js_urls := js_urls f; js_init := js_init f |}.

Definition add_javascript_url (url : string) (f : fragment) : fragment :=
  {| content := content f; css_urls := css_urls f;
     js_urls := js_urls f ++ [url]; js_init := js_init f |}.

Definition initialize_js (name : string) (f : fragment) : fragment :=
  {| content := content f; css_urls := css_urls f;
     js_urls := js_urls f; js_init := js_init f ++ [name] |}.

(** [render_context.update(context)]: the entries of [context] win. *)
Definition update (render_context context : gmap string tval) : gmap string tval :=
  context ∪ render_context.

(** What the one template of a fragment is given under [key]. *)
Definition template_value (f : fragment) (key : string) : option tval :=
  match content f with
  | [Template _ render_context] => render_context !! key
  | _ => None
  end.

End View.

(** ** [GroupProjectSubmissionXBlock.submissions_view] *)

Module SubmissionView.

Import Submission.

Definition PROJECT_NAVIGATOR_VIEW_TEMPLATE : string :=
  "templates/html/components/submission_navigator_view.html".

Section Views.

Variable date : Type.
Variable build_date_field : string -> date.
Variable format_date : date -> string.

(** [runtime.local_resource_url(self, path)]. *)
Variable local_resource_url : string -> string.

(** The property [upload]. *)
Definition upload (self : block) (st : stage)
    (project_api : string -> gmap string submission_data) : option SubmissionUpload :=
  get_upload date build_date_field format_date self project_api
    (workgroup_id (stage_activity st)).

Definition submissions_view (self : block) (st : stage)
    (project_api : string -> gmap string submission_data)
    (context : gmap string View.tval) : View.fragment :=
  let fragment := View.Fragment in
  let uploading_allowed := available_now st && is_group_member st in
  let render_context : gmap string View.tval :=
    <["disabled" := View.TBool (negb uploading_allowed)]>
      (<["upload" := View.TUpload (upload self st project_api)]>
         {["submission" := View.TSelf]}) in
  let render_context := View.update render_context context in
  let fragment :=
    View.add_content (View.Template PROJECT_NAVIGATOR_VIEW_TEMPLATE render_context) fragment in
  let fragment :=
    View.add_javascript_url (local_resource_url "public/js/components/submission.js")
      fragment in
  View.initialize_js "GroupProjectSubmissionBlock" fragment.

End Views.

(** Calls of the handler, by kind. *)
Definition is_save (ev : Py.event) : bool :=
  match ev with
  | Py.SaveFile _ _ _ => true
  | _ => false
  end.

Definition is_submit (ev : Py.event) : bool :=
  match ev with
  | Py.Submit _ => true
  | _ => false
  end.

Definition is_completion_call (ev : Py.event) : bool :=
  match ev with
  | Py.CheckSubmissionsAndMarkComplete | Py.GetNewStageStateData => true
  | _ => false
  end.

Definition is_log (ev : Py.event) : bool :=
  match ev with
  | Py.Log _ _ => true
  | _ => false
  end.

(** The calls [persist_and_submit_file] makes. *)
Definition relay_call (ev : Py.event) : bool :=
  is_save ev || is_submit ev || Submission.is_publish ev || Submission.is_notification ev.

End SubmissionView.

(** ** [StaticContentBaseXBlock] and its two subclasses *)

Module StaticContent.

(** The block of the project navigator a static content block points to. *)
Record target := { usage_id : string; icon : string }.

(** The chain [stage.activity.project.navigator]: a link that is [None]
    stands for an object without that attribute, on which the access raises
    [AttributeError]. *)
Record navigator := { get_child_of_category : string -> option target }.
Record project := { project_navigator : option navigator }.
Record activity := { display_name : string; activity_project : option project }.
Record stage := { stage_activity : option activity }.

(** The class attributes of a subclass. *)
Record block := {
  TARGET_PROJECT_NAVIGATOR_VIEW : string;
  TEXT_TEMPLATE : string
}.

Definition TEMPLATE_PATH : string := "templates/html/components/static_content.html".

(** The navigator at the end of the chain, when every link is there. *)
Definition navigator_of (st : option stage) : option navigator :=
  match st with
  | Some {| stage_activity := Some {| activity_project :=
              Some {| project_navigator := Some navigator |} |} |} => Some navigator
  | _ => None
  end.

Section StaticContentViews.

(** The categories of the two navigator views and [utils.get_link_to_block]
    are not among the sources; they are taken as given. *)
Variable submissions_category : string.
Variable resources_category : string.
Variable get_link_to_block : target -> string.



(** The [try] statement: the activity and the target block, or [None] for
    both when an attribute is missing on the way. *)
Definition find_target (self : block) (st : option stage) : option (activity * target) :=
  match st with
  | None => None
  | Some st =>
      match stage_activity st with
      | None => None
      | Some activity =>
          match activity_project activity with
          | None => None
          | Some project =>
              match project_navigator project with
              | None => None
              | Some navigator =>
                  match get_child_of_category navigator (TARGET_PROJECT_NAVIGATOR_VIEW self) with
                  | None => None
                  | Some target_block => Some (activity, target_block)
                  end
              end
          end
      end
  end.

Local Open Scope py_scope.

Definition student_view (self : block) (st : option stage)
    (context : gmap string View.tval) : Py.M View.fragment :=
  match find_target self st with
  | None => Py.ret View.Fragment
  | Some (activity, target_block) =>
      block_text <- Py.format (TEXT_TEMPLATE self) []
                      [("activity_name", display_name activity)] ;;
      let render_context : gmap string View.tval :=
        <["view_icon" := View.TStr (icon target_block)]>
          (<["target_block_id" := View.TStr (usage_id target_block)]>
             (<["block_text" := View.TStr block_text]>
                (<["block_link" := View.TStr (get_link_to_block target_block)]>
                   {["block" := View.TSelf]}))) in
      let render_context := View.update render_context context in
      let fragment := View.Fragment in
      Py.ret (View.add_content (View.Template TEMPLATE_PATH render_context) fragment)
  end.

End StaticContentViews.

End StaticContent.

(** ** [PeerSelectorXBlock] and [GroupSelectorXBlock] *)

Module Selector.

Definition PEER_TEMPLATE : string := "templates/html/components/peer_selector.html".
Definition GROUP_TEMPLATE : string := "templates/html/components/group_selector.html".
Definition SELECTOR_CSS : string := "public/css/components/review_subject_selector.css".

Definition fake_peers : list View.peer :=
  [{| View.peer_id := 1; View.username := "Jack" |};
   {| View.peer_id := 2; View.username := "Jill" |}].

Definition fake_groups : list View.group :=
  [{| View.group_id := 1 |}; {| View.group_id := 2 |}].

Section SelectorViews.

Variable local_resource_url : string -> string.

(** [team_members] is [stage.team_members], read by the property [peers]. *)
Definition peer_student_view (team_members : list View.peer)
    (context : gmap string View.tval) : View.fragment :=
  let fragment := View.Fragment in
  let render_context : gmap string View.tval :=
    <["peers" := View.TPeers team_members]> {["selector" := View.TSelf]} in
  let render_context := View.update render_context context in
  let fragment := View.add_css_url (local_resource_url SELECTOR_CSS) fragment in
  View.add_content (View.Template PEER_TEMPLATE render_context) fragment.

Definition peer_author_view (team_members : list View.peer)
    (context : gmap string View.tval) : View.fragment :=
  let render_context : gmap string View.tval :=
    <["peers" := View.TPeers fake_peers]> {["demo" := View.TBool true]} in
  let render_context := View.update render_context context in
  peer_student_view team_members render_context.

(** [review_groups] is [stage.review_groups], read by the property [groups]. *)
Definition group_student_view (review_groups : list View.group)
    (context : gmap string View.tval) : View.fragment :=
  let fragment := View.Fragment in
  let render_context : gmap string View.tval :=
    <["groups" := View.TGroups review_groups]> {["selector" := View.TSelf]} in
  let render_context := View.update render_context context in
  let fragment := View.add_css_url (local_resource_url SELECTOR_CSS) fragment in
  View.add_content (View.Template GROUP_TEMPLATE render_context) fragment.

Definition group_author_view (review_groups : list View.group)
    (context : gmap string View.tval) : View.fragment :=
  let render_context : gmap string View.tval :=
    <["groups" := View.TGroups fake_groups]> {["demo" := View.TBool true]} in
  let render_context := View.update render_context context in
  group_student_view review_groups render_context.

End SelectorViews.

End Selector.

(** ** Views of [GroupProjectReviewQuestionXBlock] *)

Module QuestionView.

Import ReviewQuestion.

Definition QUESTION_TEMPLATE : string := "templates/html/components/review_question.html".

Section QuestionViews.

Variable fromstring : string -> Py.exn + element.
Variable outer_html : element -> string.
Variable local_resource_url : string -> string.

Local Open Scope py_scope.

(** [" ".join(question_classes)]. *)
Definition question_classes (self : block) : string :=
  let question_classes := ["question"] in
  let question_classes :=
    if required self then question_classes ++ ["required"] else question_classes in
  let question_classes :=
    if truthy (question_css_classes self)
    then question_classes ++ [default "" (question_css_classes self)]
    else question_classes in
  join " " question_classes.

Definition student_view (self : block) (stage_is_closed : bool)
    (context : gmap string View.tval) : Py.M View.fragment :=
  let classes := question_classes self in
  let fragment := View.Fragment in
  question_content <- render_content fromstring outer_html self stage_is_closed ;;
  let render_context : gmap string View.tval :=
    <["question_content" := View.TStr question_content]>
      (<["question_classes" := View.TStr classes]> {["question" := View.TSelf]}) in
  let render_context := View.update render_context context in
  Py.ret (View.add_content (View.Template QUESTION_TEMPLATE render_context) fragment).

Definition author_view (self : block) (stage_is_closed : bool)
    (context : gmap string View.tval) : Py.M View.fragment :=
  fragment <- student_view self stage_is_closed context ;;
  Py.ret (View.add_css_url (local_resource_url "public/css/components/question_edit.css")
            fragment).

End QuestionViews.

(** [display_name_with_default]: the title, or the label when it is empty. *)
Definition display_name_with_default (self : block) : string :=
  match title self with
  | EmptyString => "Review Question"
  | t => t
  end.

End QuestionView.

(** ** Studio side of the feedback display blocks *)

Module FeedbackAdmin.

Import FeedbackDisplay.

(** [ValidationMessage(ValidationMessage.ERROR, text)]. *)
Inductive validation_message := Error (text : string).

Local Open Scope py_scope.

(** [validation] is what [super().validate()] returned. *)
Definition validate (self : block) (activity_questions : list ReviewQuestion.block)
    (validation : list validation_message) : Py.M (list validation_message) :=
  let validation :=
    if negb (ReviewQuestion.truthy (question_id self))
    then validation ++ [Error "No question selected"]
    else validation in
  question <- selected_question self activity_questions ;;
  let validation :=
    match question with
    | None => validation ++ [Error "Selected question not found"]
    | Some _ => validation
    end in
  Py.ret validation.

(** What [author_view] returns: the fragment of [student_view], or a
    fragment holding a plain text. *)
Inductive authored :=
| Rendered (f : fragment)
| Plain (text : string).

Definition author_view (self : block) (activity_questions : list ReviewQuestion.block)
    (api : project_api) (context : gmap string Py.value) : Py.M authored :=
  question <- selected_question self activity_questions ;;
  match question with
  | Some _ =>
      f <- student_view self activity_questions api context ;;
      Py.ret (Rendered f)
  | None => Py.ret (Plain "Question is not selected")
  end.

(** The options of the question selector: display name and value. *)
Definition question_ids_values_provider (activity_questions : list ReviewQuestion.block)
    : list (string * option string) :=
  let not_selected := ("--- Not selected ---", None) in
  let question_values :=
    map (fun question =>
           (ReviewQuestion.title question, Some (ReviewQuestion.question_id question)))
      activity_questions in
  [not_selected] ++ question_values.

(** The questions of the activity that carry the block's question id. *)
Definition matching_questions (self : block) (activity_questions : list ReviewQuestion.block)
    : list ReviewQuestion.block :=
  filter (fun q => Some (ReviewQuestion.question_id q) = question_id self) activity_questions.

End FeedbackAdmin.

(** ** More sample data *)

Module MoreSamples.

Import Submission.

(** A request without any file field. *)
Definition no_file : gmap string stream := ∅.

Definition notifier_error : Py.exn :=
  Py.Exn (Py.OtherException "NotificationError") None.

(** Saving, recording and publishing succeed; firing the notification
    raises an exception without a message. *)
Definition notifier_down_host : host :=
  {| save_file := inr tt;
     submit := inr ("s-41", "http://x/report.pdf");
     publish := inr tt;
     notifications_service := Some "notifications";
     fire_file_upload_notification := inl notifier_error;
     check_submissions_and_mark_complete := inr tt;
     get_new_stage_state_data := inr (Py.VStr "completed") |}.

(** A stand-in for [runtime.local_resource_url]. *)
Definition resource_url (path : string) : string := "/resource/" +:+ path.

Definition no_values : gmap string View.tval := ∅.

(** A feedback display on question [q1] that does not show the mean. *)
Definition quiet_display : FeedbackDisplay.block :=
  {| FeedbackDisplay.category := FeedbackDisplay.GradeEvaluation;
     FeedbackDisplay.question_id := Some "q1";
     FeedbackDisplay.show_mean := false |}.

(** A caller context that brings its own mean. *)
Definition own_mean : gmap string Py.value := {["mean" := Py.VStr "9.9"]}.

End MoreSamples.

(** * Properties *)

(** ** Helper lemmas *)

Lemma append_cons (c : ascii) (s t : string) : String c s +:+ t = String c (s +:+ t).
Proof. reflexivity. Qed.

Lemma append_empty_r (s : string) : s +:+ "" = s.
Proof.
  induction s as [|c s IH]; [reflexivity|].
  now rewrite append_cons, IH.
Qed.

(** ** Submission block *)

Section SubmissionFacts.

Import Submission.

Variable date : Type.
Variable build_date_field : string -> date.
Variable format_date : date -> string.

(** C6. For every submission map of the host, [get_upload] returns a record
    exactly when the configured upload id is a key of the map; the record's
    location is the entry's document URL; when the key is absent nothing is
    returned. *)
Theorem get_upload_present_iff_key (self : block)
    (project_api : string -> gmap string submission_data) (group_id : string) :
  (is_Some (get_upload date build_date_field format_date self project_api group_id)
     <-> upload_id self ∈ dom (project_api group_id))
  /\ (forall upload,
        get_upload date build_date_field format_date self project_api group_id = Some upload ->
        exists entry, project_api group_id !! upload_id self = Some entry
                      /\ location upload = document_url entry
                      /\ file_name upload = document_filename entry)
  /\ (upload_id self ∉ dom (project_api group_id) ->
        get_upload date build_date_field format_date self project_api group_id = None).
Proof.
  unfold get_upload.
  destruct (project_api group_id !! upload_id self) as [entry|] eqn:Hlookup.
  - assert (Hin : upload_id self ∈ dom (project_api group_id))
      by (apply elem_of_dom; eauto).
    split; [|split].
    + split; intros _; eauto.
    + intros upload [= <-]. exists entry. auto.
    + intros Hout. destruct (Hout Hin).
  - apply not_elem_of_dom in Hlookup.
    split; [|split].
    + split; [intros [x Hx]; discriminate | intros Hin; destruct (Hlookup Hin)].
    + intros upload [=].
    + reflexivity.
Qed.

Lemma starts_with_bind {A B} ev (m : Py.M A) (k : A -> Py.M B) :
  Py.starts_with ev m -> Py.starts_with ev (Py.bind m k).
Proof.
  intros [rest Hm]. unfold Py.starts_with, Py.bind.
  destruct (Py.result m); simpl; rewrite Hm; eauto.
Qed.

Lemma starts_with_try {A} ev (m : Py.M A) handles handler :
  Py.starts_with ev m -> Py.starts_with ev (Py.try_except m handles handler).
Proof.
  intros [rest Hm]. unfold Py.starts_with, Py.try_except.
  destruct (Py.result m) as [e|a]; [destruct (handles e)|]; simpl; rewrite Hm; eauto.
Qed.

Lemma persist_starts_with_save (self : block) h activity context file_stream :
  Py.starts_with (Py.SaveFile (name file_stream) (upload_id self) context)
    (persist_and_submit_file self h activity context file_stream).
Proof.
  unfold persist_and_submit_file.
  apply starts_with_bind, starts_with_try. now exists [].
Qed.

Lemma denied_timing (self : block) st h params :
  available_now st = false ->
  upload_submission self st h params =
    Py.Outcome []
      (inr {| body :=
                <["message" :=
                    Py.VStr (if is_open st
                             then "Can't " +:+ STAGE_ACTION st +:+ " as stage is closed."
                             else "Can't " +:+ STAGE_ACTION st
                                  +:+ " as stage is not yet opened.")]>
                  {["result" := Py.VStr "error"]};
              status_code := 422 |}).
Proof.
  intros Hav. unfold upload_submission, upload_submission_data. rewrite Hav.
  destruct (is_open st); reflexivity.
Qed.

Lemma denied_membership (self : block) st h params :
  available_now st = true -> is_group_member st = false ->
  upload_submission self st h params =
    Py.Outcome []
      (inr {| body := <["message" := Py.VStr "Only group members can upload files"]>
                        {["result" := Py.VStr "error"]};
              status_code := 403 |}).
Proof.
  intros Hav Hmem. unfold upload_submission, upload_submission_data.
  rewrite Hav, Hmem. reflexivity.
Qed.

Lemma bind_inr {A B} t (a : A) (k : A -> Py.M B) :
  Py.bind (Py.Outcome t (inr a)) k = Py.Outcome (t ++ Py.trace (k a)) (Py.result (k a)).
Proof. reflexivity. Qed.

Lemma bind_inl {A B} t e (k : A -> Py.M B) :
  Py.bind (Py.Outcome t (inl e)) k = Py.Outcome t (inl e).
Proof. reflexivity. Qed.

Lemma success_message_eq :
  Py.format SUCCESSFUL_UPLOAD_MESSAGE_TPL [] [("icon", "fa fa-paperclip")] =
  Py.Outcome [] (inr SUCCESS_MESSAGE).
Proof. vm_compute. reflexivity. Qed.

Lemma failed_message_eq m :
  Py.format FAILED_UPLOAD_MESSAGE_TPL [] [("error_goes_here", m)] =
  Py.Outcome [] (inr ("Error uploading file: " +:+ m)).
Proof. unfold Py.format. f_equal. lazy. rewrite append_empty_r. reflexivity. Qed.

Lemma storing_message_eq n m :
  Py.format "Error storing file {} - {}" [n; m] [] =
  Py.Outcome [] (inr ("Error storing file " +:+ n +:+ " - " +:+ m)).
Proof. unfold Py.format. f_equal. lazy. rewrite append_empty_r. reflexivity. Qed.

Lemma recording_message_eq n m :
  Py.format "Error recording file information {} - {}" [n; m] [] =
  Py.Outcome [] (inr ("Error recording file information " +:+ n +:+ " - " +:+ m)).
Proof. unfold Py.format. f_equal. lazy. rewrite append_empty_r. reflexivity. Qed.

Ltac run_py :=
  unfold Py.ret, Py.emit, Py.raise, Py.call, Py.try_except;
  repeat (rewrite ?bind_inr, ?bind_inl, ?failed_message_eq, ?success_message_eq,
            ?storing_message_eq, ?recording_message_eq;
          cbn [Py.trace Py.result Py.is_exception app submitted file name]).

(** *** [persist_and_submit_file], outcome by outcome of the host *)

Lemma persist_save_fails (self : block) h activity context file_stream e :
  save_file h = inl e ->
  persist_and_submit_file self h activity context file_stream =
    Py.Outcome [Py.SaveFile (name file_stream) (upload_id self) context]
      (inl (Py.set_message e
              ("Error storing file " +:+ name file_stream +:+ " - " +:+ original_message e))).
Proof.
  intros Hs. unfold persist_and_submit_file. rewrite Hs. run_py. reflexivity.
Qed.

Lemma persist_submit_fails (self : block) h activity context file_stream e :
  save_file h = inr tt ->
  submit h = inl e ->
  persist_and_submit_file self h activity context file_stream =
    Py.Outcome [Py.SaveFile (name file_stream) (upload_id self) context;
                Py.Submit (name file_stream)]
      (inl (Py.set_message e
              ("Error recording file information " +:+ name file_stream
               +:+ " - " +:+ original_message e))).
Proof.
  intros Hs Hr. unfold persist_and_submit_file. rewrite Hs, Hr. run_py. reflexivity.
Qed.

Lemma persist_publish_fails (self : block) h activity context file_stream sid url e :
  save_file h = inr tt ->
  submit h = inr (sid, url) ->
  publish h = inl e ->
  persist_and_submit_file self h activity context file_stream =
    Py.Outcome [Py.SaveFile (name file_stream) (upload_id self) context;
                Py.Submit (name file_stream);
                Py.Publish SUBMISSION_RECEIVED_EVENT
                  (submission_payload activity
                     {| file := file_stream; submission_id := sid; file_url := url |})]
      (inl (Py.set_message e
              ("Error recording file information " +:+ name file_stream
               +:+ " - " +:+ original_message e))).
Proof.
  intros Hs Hr Hp. unfold persist_and_submit_file. rewrite Hs, Hr, Hp. run_py. reflexivity.
Qed.

Lemma persist_without_notifications (self : block) h activity context file_stream sid url :
  save_file h = inr tt ->
  submit h = inr (sid, url) ->
  publish h = inr tt ->
  notifications_service h = None ->
  persist_and_submit_file self h activity context file_stream =
    Py.Outcome [Py.SaveFile (name file_stream) (upload_id self) context;
                Py.Submit (name file_stream);
                Py.Publish SUBMISSION_RECEIVED_EVENT
                  (submission_payload activity
                     {| file := file_stream; submission_id := sid; file_url := url |})]
      (inr {| file := file_stream; submission_id := sid; file_url := url |}).
Proof.
  intros Hs Hr Hp Hn. unfold persist_and_submit_file. rewrite Hs, Hr, Hp, Hn. run_py.
  reflexivity.
Qed.

Lemma persist_with_notifications (self : block) h activity context file_stream sid url
    service fired :
  save_file h = inr tt ->
  submit h = inr (sid, url) ->
  publish h = inr tt ->
  notifications_service h = Some service ->
  fire_file_upload_notification h = fired ->
  persist_and_submit_file self h activity context file_stream =
    Py.Outcome [Py.SaveFile (name file_stream) (upload_id self) context;
                Py.Submit (name file_stream);
                Py.Publish SUBMISSION_RECEIVED_EVENT
                  (submission_payload activity
                     {| file := file_stream; submission_id := sid; file_url := url |});
                Py.FireFileUploadNotification service]
      (match fired with
       | inl e => inl e
       | inr _ => inr {| file := file_stream; submission_id := sid; file_url := url |}
       end).
Proof.
  intros Hs Hr Hp Hn Hf. unfold persist_and_submit_file. rewrite Hs, Hr, Hp, Hn, Hf.
  destruct fired as [e|[]]; run_py; reflexivity.
Qed.

(** *** [upload_relay], by where the [try] body is left *)

Lemma upload_relay_relay_raises (self : block) st h params e :
  Py.result (relay self st h params) = inl e ->
  upload_relay self st h params =
    Py.Outcome (Py.trace (relay self st h params) ++ [Py.Log Py.ERROR (Py.LogExn e)])
      (inr (failure_data e success_data, failure_code_of e)).
Proof.
  intros Hr. unfold upload_relay, upload_try. rewrite Hr. run_py. reflexivity.
Qed.

Lemma upload_relay_completion_raises (self : block) st h params uploaded_file e :
  Py.result (relay self st h params) = inr uploaded_file ->
  Py.result (completion h) = inl e ->
  upload_relay self st h params =
    Py.Outcome (Py.trace (relay self st h params) ++ Py.trace (completion h)
                ++ [Py.Log Py.ERROR (Py.LogExn e)])
      (inr (failure_data e (with_submission uploaded_file success_data), failure_code_of e)).
Proof.
  intros Hr Hc. unfold upload_relay, upload_try. rewrite Hr, Hc. run_py.
  now rewrite <- app_assoc.
Qed.

Lemma upload_relay_succeeds (self : block) st h params uploaded_file new_state :
  Py.result (relay self st h params) = inr uploaded_file ->
  Py.result (completion h) = inr new_state ->
  upload_relay self st h params =
    Py.Outcome (Py.trace (relay self st h params) ++ Py.trace (completion h))
      (inr (<["new_stage_states" := Py.VList [new_state]]>
              (with_submission uploaded_file success_data), 0)).
Proof.
  intros Hr Hc. unfold upload_relay, upload_try. rewrite Hr, Hc. run_py.
  now rewrite app_nil_r.
Qed.

Lemma relay_with_file (self : block) st h params f :
  params !! upload_id self = Some f ->
  relay self st h params =
    persist_and_submit_file self h (stage_activity st)
      (upload_context (stage_activity st)) f.
Proof.
  intros Hf. unfold relay, request_file. rewrite Hf. run_py.
  now destruct (persist_and_submit_file _ _ _ _ _).
Qed.

Lemma upload_relay_trace (self : block) st h params :
  exists rest,
    Py.trace (upload_relay self st h params) = Py.trace (relay self st h params) ++ rest.
Proof.
  destruct (Py.result (relay self st h params)) as [e|uploaded_file] eqn:Hr.
  - rewrite (upload_relay_relay_raises _ _ _ _ _ Hr). simpl. eauto.
  - destruct (Py.result (completion h)) as [e|new_state] eqn:Hc.
    + rewrite (upload_relay_completion_raises _ _ _ _ _ _ Hr Hc). simpl. eauto.
    + rewrite (upload_relay_succeeds _ _ _ _ _ _ Hr Hc). simpl. eauto.
Qed.

Lemma allowed_runs_relay (self : block) st h params :
  uploading_allowed st = true ->
  upload_submission_data self st h params = upload_relay self st h params.
Proof.
  unfold uploading_allowed, upload_submission_data.
  intros [-> ->]%andb_true_iff. reflexivity.
Qed.

Lemma upload_submission_response (self : block) st h params t response_data failure_code :
  upload_submission_data self st h params = Py.Outcome t (inr (response_data, failure_code)) ->
  upload_submission self st h params =
    Py.Outcome t (inr {| body := response_data; status_code := http_status failure_code |}).
Proof.
  intros H. unfold upload_submission. rewrite H. run_py. now rewrite app_nil_r.
Qed.

(** C5. The upload reaches the relay exactly when the stage is available now
    and the requester is a group member. A stage that is not available
    answers 422 with the not-yet-opened message when it is not open and the
    closed message otherwise; an available stage answers 403 to a requester
    outside the group; neither denial makes any call. *)
Theorem upload_submission_gate (self : block) st h params :
  (available_now st = false ->
     upload_submission self st h params =
       Py.Outcome []
         (inr {| body :=
                   <["message" :=
                       Py.VStr (if is_open st
                                then "Can't " +:+ STAGE_ACTION st +:+ " as stage is closed."
                                else "Can't " +:+ STAGE_ACTION st
                                     +:+ " as stage is not yet opened.")]>
                     {["result" := Py.VStr "error"]};
                 status_code := 422 |}))
  /\ (available_now st = true -> is_group_member st = false ->
       upload_submission self st h params =
         Py.Outcome []
           (inr {| body := <["message" := Py.VStr "Only group members can upload files"]>
                             {["result" := Py.VStr "error"]};
                   status_code := 403 |}))
  /\ (forall ev, In ev (Py.trace (upload_submission self st h params)) ->
       available_now st = true /\ is_group_member st = true)
  /\ (available_now st = true -> is_group_member st = true ->
       upload_submission_data self st h params = upload_relay self st h params
       /\ forall f, params !! upload_id self = Some f ->
            Py.starts_with
              (Py.SaveFile (name f) (upload_id self) (upload_context (stage_activity st)))
              (upload_submission self st h params)).
Proof.
  split; [apply denied_timing|]. split; [apply denied_membership|]. split.
  - intros ev Hev.
    destruct (available_now st) eqn:Hav.
    + destruct (is_group_member st) eqn:Hmem; [auto|].
      rewrite (denied_membership self st h params Hav Hmem) in Hev. destruct Hev.
    + rewrite (denied_timing self st h params Hav) in Hev. destruct Hev.
  - intros Hav Hmem.
    assert (Hrelay : upload_submission_data self st h params = upload_relay self st h params)
      by (apply allowed_runs_relay; unfold uploading_allowed; now rewrite Hav, Hmem).
    split; [exact Hrelay|].
    intros f Hf. unfold upload_submission. apply starts_with_bind. rewrite Hrelay.
    destruct (upload_relay_trace self st h params) as [rest Hrest].
    destruct (persist_starts_with_save self h (stage_activity st)
                (upload_context (stage_activity st)) f) as [rest' Hrest'].
    unfold Py.starts_with. rewrite Hrest, (relay_with_file _ _ _ _ _ Hf), Hrest'.
    simpl. eauto.
Qed.

Lemma upload_submission_gate_witness :
  upload_submission Sample.essay Sample.not_open_stage Sample.good_host Sample.one_file
  = Py.Outcome []
      (inr {| body := <["message" :=
                          Py.VStr "Can't upload submission as stage is not yet opened."]>
                        {["result" := Py.VStr "error"]};
              status_code := 422 |})
  /\ upload_submission Sample.essay Sample.closed_stage Sample.good_host Sample.one_file
     = Py.Outcome []
         (inr {| body := <["message" :=
                             Py.VStr "Can't upload submission as stage is closed."]>
                           {["result" := Py.VStr "error"]};
                 status_code := 422 |})
  /\ upload_submission Sample.essay Sample.outsider_stage Sample.good_host Sample.one_file
     = Py.Outcome []
         (inr {| body := <["message" := Py.VStr "Only group members can upload files"]>
                           {["result" := Py.VStr "error"]};
                 status_code := 403 |})
  /\ Py.starts_with
       (Py.SaveFile "report.pdf" "doc1" (upload_context Sample.team_activity))
       (upload_submission Sample.essay Sample.open_stage Sample.good_host Sample.one_file).
Proof.
  split; [|split; [|split]].
  - exact (proj1 (upload_submission_gate Sample.essay Sample.not_open_stage
                    Sample.good_host Sample.one_file) eq_refl).
  - exact (proj1 (upload_submission_gate Sample.essay Sample.closed_stage
                    Sample.good_host Sample.one_file) eq_refl).
  - exact (proj1 (proj2 (upload_submission_gate Sample.essay Sample.outsider_stage
                           Sample.good_host Sample.one_file)) eq_refl eq_refl).
  - destruct (upload_submission_gate Sample.essay Sample.open_stage Sample.good_host
                Sample.one_file) as (_ & _ & _ & Hrelay).
    destruct (Hrelay eq_refl eq_refl) as [_ Hstart].
    exact (Hstart Sample.report eq_refl).
Defined.

(** C1, as the code has it. When saving and recording succeed and the
    analytics publish call raises, [persist_and_submit_file] does not return
    the uploaded file: the exception is raised again with its message
    rewritten to name the file under the recording prefix, and the
    notification is not fired. *)
Theorem publish_failure_is_reraised (self : block) h activity context file_stream sid url e :
  save_file h = inr tt ->
  submit h = inr (sid, url) ->
  publish h = inl e ->
  Py.result (persist_and_submit_file self h activity context file_stream) =
    inl (Py.set_message e
           ("Error recording file information " +:+ name file_stream
            +:+ " - " +:+ original_message e))
  /\ ~ Py.returned (persist_and_submit_file self h activity context file_stream)
  /\ List.filter is_notification
       (Py.trace (persist_and_submit_file self h activity context file_stream)) = [].
Proof.
  intros Hs Hr Hp.
  rewrite (persist_publish_fails self h activity context file_stream sid url e Hs Hr Hp).
  split; [reflexivity|]. split; [|reflexivity].
  intros [uploaded_file Hret]. discriminate Hret.
Qed.

Lemma publish_failure_is_reraised_witness :
  Py.result (persist_and_submit_file Sample.essay Sample.publish_down_host
               Sample.team_activity (upload_context Sample.team_activity) Sample.report) =
    inl (Py.Exn (Py.OtherException "IOError")
           (Some "Error recording file information report.pdf - event sink unreachable")).
Proof.
  exact (proj1 (publish_failure_is_reraised Sample.essay Sample.publish_down_host
                  Sample.team_activity (upload_context Sample.team_activity) Sample.report
                  "s-41" "http://x/report.pdf" Sample.sink_down eq_refl eq_refl eq_refl)).
Defined.

(** C1, as it is worded, fails: here the file is saved and recorded, the
    analytics sink raises, and [persist_and_submit_file] raises instead of
    returning the uploaded file. *)
Lemma publish_failure_fails_the_relay :
  save_file Sample.publish_down_host = inr tt
  /\ submit Sample.publish_down_host = inr ("s-41", "http://x/report.pdf")
  /\ publish Sample.publish_down_host = inl Sample.sink_down
  /\ ~ Py.returned
        (persist_and_submit_file Sample.essay Sample.publish_down_host
           Sample.team_activity (upload_context Sample.team_activity) Sample.report).
Proof.
  repeat split. intros [uploaded_file Hret]. vm_compute in Hret. discriminate Hret.
Qed.

(** C8. A call of [persist_and_submit_file] that returns yields the file
    with the submission id and file URL of the recording step, has published
    exactly one analytics event, whose payload has the keys [submission_id],
    [filename], [content_id], [group_id] and [user_id], and has fired the
    notification exactly when the runtime has the notifications service. The
    call returns exactly when saving, recording and publishing return and the
    service is absent or its notification returns: without the service it
    saves, records and publishes and returns the file; with the service it
    does the same, fires the notification last, and returns the file. *)
Theorem successful_relay_effects (self : block) h activity context file_stream :
  (forall uploaded_file,
     Py.result (persist_and_submit_file self h activity context file_stream)
       = inr uploaded_file ->
     (exists sid url,
        submit h = inr (sid, url)
        /\ uploaded_file = {| file := file_stream; submission_id := sid; file_url := url |})
     /\ List.filter is_publish
          (Py.trace (persist_and_submit_file self h activity context file_stream))
        = [Py.Publish SUBMISSION_RECEIVED_EVENT (submission_payload activity uploaded_file)]
     /\ map fst (submission_payload activity uploaded_file)
        = ["submission_id"; "filename"; "content_id"; "group_id"; "user_id"]
     /\ List.filter is_notification
          (Py.trace (persist_and_submit_file self h activity context file_stream))
        = match notifications_service h with
          | Some service => [Py.FireFileUploadNotification service]
          | None => []
          end)
  /\ (Py.returned (persist_and_submit_file self h activity context file_stream)
      <-> save_file h = inr tt
          /\ (exists sid url, submit h = inr (sid, url))
          /\ publish h = inr tt
          /\ (notifications_service h = None \/ fire_file_upload_notification h = inr tt))
  /\ (forall sid url,
       save_file h = inr tt -> submit h = inr (sid, url) -> publish h = inr tt ->
       notifications_service h = None ->
       persist_and_submit_file self h activity context file_stream
       = Py.Outcome
           [Py.SaveFile (name file_stream) (upload_id self) context;
            Py.Submit (name file_stream);
            Py.Publish SUBMISSION_RECEIVED_EVENT
              (submission_payload activity
                 {| file := file_stream; submission_id := sid; file_url := url |})]
           (inr {| file := file_stream; submission_id := sid; file_url := url |}))
  /\ (forall sid url service,
       save_file h = inr tt -> submit h = inr (sid, url) -> publish h = inr tt ->
       notifications_service h = Some service ->
       fire_file_upload_notification h = inr tt ->
       persist_and_submit_file self h activity context file_stream
       = Py.Outcome
           [Py.SaveFile (name file_stream) (upload_id self) context;
            Py.Submit (name file_stream);
            Py.Publish SUBMISSION_RECEIVED_EVENT
              (submission_payload activity
                 {| file := file_stream; submission_id := sid; file_url := url |});
            Py.FireFileUploadNotification service]
           (inr {| file := file_stream; submission_id := sid; file_url := url |})).
Proof.
  split; [|split; [|split]].
  - intros uploaded_file.
    destruct (save_file h) as [e|[]] eqn:Hs.
    { rewrite (persist_save_fails self h activity context file_stream e Hs). discriminate. }
    destruct (submit h) as [e|[sid url]] eqn:Hr.
    { rewrite (persist_submit_fails self h activity context file_stream e Hs Hr).
      discriminate. }
    destruct (publish h) as [e|[]] eqn:Hp.
    { rewrite (persist_publish_fails self h activity context file_stream sid url e Hs Hr Hp).
      discriminate. }
    destruct (notifications_service h) as [service|] eqn:Hn.
    + rewrite (persist_with_notifications self h activity context file_stream sid url
                 service _ Hs Hr Hp Hn eq_refl).
      destruct (fire_file_upload_notification h) as [e|[]]; [discriminate|].
      intros [= <-]. repeat split; eauto.
    + rewrite (persist_without_notifications self h activity context file_stream sid url
                 Hs Hr Hp Hn).
      intros [= <-]. repeat split; eauto.
  - unfold Py.returned.
    destruct (save_file h) as [e|[]] eqn:Hs.
    { rewrite (persist_save_fails self h activity context file_stream e Hs).
      split; [intros [x Hx]; discriminate | intros (H & _); discriminate]. }
    destruct (submit h) as [e|[sid url]] eqn:Hr.
    { rewrite (persist_submit_fails self h activity context file_stream e Hs Hr).
      split; [intros [x Hx]; discriminate | intros (_ & (? & ? & H) & _); discriminate]. }
    destruct (publish h) as [e|[]] eqn:Hp.
    { rewrite (persist_publish_fails self h activity context file_stream sid url e Hs Hr Hp).
      split; [intros [x Hx]; discriminate | intros (_ & _ & H & _); discriminate]. }
    destruct (notifications_service h) as [service|] eqn:Hn.
    + rewrite (persist_with_notifications self h activity context file_stream sid url
                 service _ Hs Hr Hp Hn eq_refl).
      destruct (fire_file_upload_notification h) as [e|[]]; cbn [Py.result].
      * split; [intros [x Hx]; discriminate|].
        intros (_ & _ & _ & [H|H]); discriminate.
      * split; [|eauto]. intros _. repeat split; eauto.
    + rewrite (persist_without_notifications self h activity context file_stream sid url
                 Hs Hr Hp Hn). cbn [Py.result].
      split; [|eauto]. intros _. repeat split; eauto.
  - intros sid url Hs Hr Hp Hn.
    exact (persist_without_notifications self h activity context file_stream sid url
             Hs Hr Hp Hn).
  - intros sid url service Hs Hr Hp Hn Hf.
    now rewrite (persist_with_notifications self h activity context file_stream sid url
                   service _ Hs Hr Hp Hn Hf).
Qed.

Lemma successful_relay_effects_witness :
  persist_and_submit_file Sample.essay Sample.good_host Sample.team_activity
    (upload_context Sample.team_activity) Sample.report
  = Py.Outcome
      [Py.SaveFile "report.pdf" "doc1" (upload_context Sample.team_activity);
       Py.Submit "report.pdf";
       Py.Publish "activity.received_submission"
         [("submission_id", Py.VStr "s-41"); ("filename", Py.VStr "report.pdf");
          ("content_id", Py.VStr "activity-1"); ("group_id", Py.VStr "12");
          ("user_id", Py.VStr "7")];
       Py.FireFileUploadNotification "notifications"]
      (inr Sample.stored_report)
  /\ persist_and_submit_file Sample.essay Sample.quiet_host Sample.team_activity
       (upload_context Sample.team_activity) Sample.report
     = Py.Outcome
         [Py.SaveFile "report.pdf" "doc1" (upload_context Sample.team_activity);
          Py.Submit "report.pdf";
          Py.Publish "activity.received_submission"
            [("submission_id", Py.VStr "s-41"); ("filename", Py.VStr "report.pdf");
             ("content_id", Py.VStr "activity-1"); ("group_id", Py.VStr "12");
             ("user_id", Py.VStr "7")]]
         (inr Sample.stored_report)
  /\ List.filter is_publish
       (Py.trace (persist_and_submit_file Sample.essay Sample.good_host Sample.team_activity
                    (upload_context Sample.team_activity) Sample.report))
     = [Py.Publish "activity.received_submission"
          [("submission_id", Py.VStr "s-41"); ("filename", Py.VStr "report.pdf");
           ("content_id", Py.VStr "activity-1"); ("group_id", Py.VStr "12");
           ("user_id", Py.VStr "7")]].
Proof.
  split; [|split].
  - destruct (successful_relay_effects Sample.essay Sample.good_host Sample.team_activity
                (upload_context Sample.team_activity) Sample.report) as (_ & _ & _ & Hfire).
    exact (Hfire "s-41" "http://x/report.pdf" "notifications"
             eq_refl eq_refl eq_refl eq_refl eq_refl).
  - destruct (successful_relay_effects Sample.essay Sample.quiet_host Sample.team_activity
                (upload_context Sample.team_activity) Sample.report) as (_ & _ & Hquiet & _).
    exact (Hquiet "s-41" "http://x/report.pdf" eq_refl eq_refl eq_refl eq_refl).
  - destruct (successful_relay_effects Sample.essay Sample.good_host Sample.team_activity
                (upload_context Sample.team_activity) Sample.report) as [Hok _].
    destruct (Hok Sample.stored_report eq_refl) as (_ & Hpub & _).
    exact Hpub.
Defined.

Lemma http_status_nonzero (failure_code : Z) :
  failure_code <> 0 -> http_status failure_code = failure_code.
Proof. intros H. unfold http_status. destruct (Z.eqb_spec failure_code 0); congruence. Qed.

Lemma http_status_never_zero (failure_code : Z) : http_status failure_code <> 0.
Proof. unfold http_status. destruct (Z.eqb_spec failure_code 0); lia. Qed.

(** C9. An exception that leaves the relay step is answered with failure
    code 500, or with the code of the exception when it is an [ApiError]; the
    code is written on the response as its status. When the save step raises,
    the exception leaves the relay with the message
    [Error storing file <name> - <original message>]; when the recording step
    raises, with [Error recording file information <name> - <original message>];
    the class of the exception, and so the code, is unchanged. *)
Theorem relay_failure_status (self : block) st h params :
  available_now st = true -> is_group_member st = true ->
  (forall e, Py.result (relay self st h params) = inl e ->
     Py.result (upload_submission_data self st h params)
       = inr (failure_data e success_data, failure_code_of e)
     /\ Py.result (upload_submission self st h params)
        = inr {| body := failure_data e success_data;
                 status_code := http_status (failure_code_of e) |}
     /\ failure_code_of e = match Py.exc_type e with
                            | Py.ApiError code => code
                            | _ => 500
                            end
     /\ (failure_code_of e <> 0 -> http_status (failure_code_of e) = failure_code_of e))
  /\ (forall f e, params !! upload_id self = Some f -> save_file h = inl e ->
       let raised :=
         Py.set_message e ("Error storing file " +:+ name f +:+ " - " +:+ original_message e) in
       Py.result (relay self st h params) = inl raised
       /\ failure_code_of raised = failure_code_of e)
  /\ (forall f e, params !! upload_id self = Some f ->
       save_file h = inr tt -> submit h = inl e ->
       let raised :=
         Py.set_message e ("Error recording file information " +:+ name f
                           +:+ " - " +:+ original_message e) in
       Py.result (relay self st h params) = inl raised
       /\ failure_code_of raised = failure_code_of e).
Proof.
  intros Hav Hmem.
  assert (Hrelay : upload_submission_data self st h params = upload_relay self st h params)
    by (apply allowed_runs_relay; unfold uploading_allowed; now rewrite Hav, Hmem).
  split; [|split].
  - intros e He.
    pose proof (upload_relay_relay_raises self st h params e He) as Hout.
    rewrite <- Hrelay in Hout.
    rewrite (upload_submission_response _ _ _ _ _ _ _ Hout), Hout.
    repeat split.
    + unfold failure_code_of, Py.api_error_code. now destruct (Py.exc_type e).
    + apply http_status_nonzero.
  - intros f e Hf Hs raised. split; [|reflexivity].
    rewrite (relay_with_file _ _ _ _ _ Hf).
    now rewrite (persist_save_fails self h _ _ f e Hs).
  - intros f e Hf Hs Hr raised. split; [|reflexivity].
    rewrite (relay_with_file _ _ _ _ _ Hf).
    now rewrite (persist_submit_fails self h _ _ f e Hs Hr).
Qed.

Lemma relay_failure_status_witness :
  Py.result (upload_submission Sample.essay Sample.open_stage Sample.storage_down_host
               Sample.one_file)
  = inr {| body :=
             failure_data
               (Py.Exn (Py.OtherException "IOError")
                  (Some "Error storing file report.pdf - disk full"))
               success_data;
           status_code := 500 |}
  /\ Py.result (upload_submission Sample.essay Sample.open_stage Sample.api_down_host
                  Sample.one_file)
     = inr {| body :=
                failure_data
                  (Py.Exn (Py.ApiError 404)
                     (Some "Error recording file information report.pdf - Not Found"))
                  success_data;
              status_code := 404 |}.
Proof.
  split.
  - destruct (relay_failure_status Sample.essay Sample.open_stage Sample.storage_down_host
                Sample.one_file eq_refl eq_refl) as (Hstatus & Hsave & _).
    destruct (Hsave Sample.report Sample.disk_full eq_refl eq_refl) as [Hraised _].
    destruct (Hstatus _ Hraised) as (_ & Hresponse & _).
    exact Hresponse.
  - destruct (relay_failure_status Sample.essay Sample.open_stage Sample.api_down_host
                Sample.one_file eq_refl eq_refl) as (Hstatus & _ & Hrecord).
    destruct (Hrecord Sample.report Sample.api_not_found eq_refl eq_refl eq_refl)
      as [Hraised _].
    destruct (Hstatus _ Hraised) as (_ & Hresponse & _).
    exact Hresponse.
Defined.

Lemma completion_raises_iff (h : host) (e : Py.exn) :
  Py.result (completion h) = inl e <->
  check_submissions_and_mark_complete h = inl e
  \/ (check_submissions_and_mark_complete h = inr tt /\ get_new_stage_state_data h = inl e).
Proof.
  unfold completion.
  destruct (check_submissions_and_mark_complete h) as [e1|[]];
    destruct (get_new_stage_state_data h) as [e2|v]; run_py; simpl;
    split; try (intros [= ->]; auto); intros [H|[H1 H2]];
    try discriminate; try congruence.
Qed.

(** C10. When the relay has returned the uploaded file and a later step of
    the handler raises, the answer is the failure report (failure title,
    failure message, non-zero status) and its body still maps [submissions]
    to the submission id and file URL of the upload. *)
Theorem late_failure_keeps_submissions (self : block) st h params uploaded_file e :
  available_now st = true -> is_group_member st = true ->
  Py.result (relay self st h params) = inr uploaded_file ->
  Py.result (completion h) = inl e ->
  exists response,
    Py.result (upload_submission self st h params) = inr response
    /\ body response !! "submissions"
       = Some (Py.VDict [(submission_id uploaded_file, Py.VStr (file_url uploaded_file))])
    /\ body response !! "title" = Some (Py.VStr FAILED_UPLOAD_TITLE)
    /\ body response !! "message"
       = Some (Py.VStr ("Error uploading file: " +:+ error_message_of e))
    /\ body response !! "new_stage_states" = None
    /\ status_code response = http_status (failure_code_of e)
    /\ status_code response <> 0.
Proof.
  intros Hav Hmem Hr Hc.
  assert (Hrelay : upload_submission_data self st h params = upload_relay self st h params)
    by (apply allowed_runs_relay; unfold uploading_allowed; now rewrite Hav, Hmem).
  pose proof (upload_relay_completion_raises self st h params uploaded_file e Hr Hc) as Hout.
  rewrite <- Hrelay in Hout.
  eexists. rewrite (upload_submission_response _ _ _ _ _ _ _ Hout).
  split; [reflexivity|]. cbn [body status_code].
  unfold failure_data, with_submission, success_data.
  repeat split; try (by simplify_map_eq).
  apply http_status_never_zero.
Qed.

Lemma late_failure_keeps_submissions_witness :
  exists response,
    Py.result (upload_submission Sample.essay Sample.open_stage Sample.completion_down_host
                 Sample.one_file) = inr response
    /\ body response !! "submissions"
       = Some (Py.VDict [("s-41", Py.VStr "http://x/report.pdf")])
    /\ body response !! "title" = Some (Py.VStr "Upload failed.")
    /\ status_code response = 404.
Proof.
  destruct (late_failure_keeps_submissions Sample.essay Sample.open_stage
              Sample.completion_down_host Sample.one_file Sample.stored_report
              Sample.api_not_found eq_refl eq_refl eq_refl eq_refl)
    as (response & Hres & Hsub & Htitle & _ & _ & Hstatus & _).
  exists response. repeat split; assumption.
Defined.

End SubmissionFacts.

Lemma get_upload_present_iff_key_witness :
  is_Some (Submission.get_upload string Sample.keep_date Sample.show_date Sample.essay
             (fun _ => Sample.submission_map) "12")
  /\ Submission.get_upload string Sample.keep_date Sample.show_date Sample.appendix
       (fun _ => Sample.submission_map) "12" = None.
Proof.
  split.
  - apply (proj1 (get_upload_present_iff_key string Sample.keep_date Sample.show_date Sample.essay
                    (fun _ => Sample.submission_map) "12")).
    apply elem_of_dom. eexists. reflexivity.
  - apply (proj2 (proj2 (get_upload_present_iff_key string Sample.keep_date Sample.show_date Sample.appendix
                           (fun _ => Sample.submission_map) "12"))).
    apply not_elem_of_dom. reflexivity.
Defined.

(** The record of the spec's example. *)
Example get_upload_location :
  Submission.location <$> Submission.get_upload string Sample.keep_date Sample.show_date Sample.essay
                 (fun _ => Sample.submission_map) "12"
  = Some "http://x/f.pdf".
Proof. reflexivity. Qed.

(** ** HTML escaping *)

Section HtmlFacts.

Import Html.

Lemma append_assoc (a b c : string) : (a +:+ b) +:+ c = a +:+ (b +:+ c).
Proof. induction a as [|x a IH]; [reflexivity|]. now rewrite !append_cons, IH. Qed.

Lemma replace_app c by_ s t :
  replace c by_ (s +:+ t) = replace c by_ s +:+ replace c by_ t.
Proof.
  induction s as [|a s IH]; [reflexivity|].
  rewrite append_cons. simpl. rewrite IH.
  destruct (Ascii.eqb a c); [now rewrite append_assoc | now rewrite append_cons].
Qed.

Lemma escape_app s t : escape (s +:+ t) = escape s +:+ escape t.
Proof. unfold escape. now rewrite !replace_app. Qed.

(** Escaping works character by character. *)
Lemma escape_cons a s : escape (String a s) = escape (String a "") +:+ escape s.
Proof. now rewrite <- escape_app. Qed.

Lemma any_char_app p s t : any_char p (s +:+ t) = any_char p s || any_char p t.
Proof.
  induction s as [|a s IH]; [reflexivity|].
  rewrite append_cons. simpl. now rewrite IH, orb_assoc.
Qed.

Ltac each_char a := destruct a as [[] [] [] [] [] [] [] []].

Lemma escape_char_no_markup a : any_char is_markup (escape (String a "")) = false.
Proof. each_char a; vm_compute; reflexivity. Qed.

(** No raw angle bracket or quote survives escaping. *)
Lemma escape_no_markup s : any_char is_markup (escape s) = false.
Proof.
  induction s as [|a s IH]; [reflexivity|].
  now rewrite escape_cons, any_char_app, escape_char_no_markup, IH.
Qed.

Lemma escape_char_plain a : is_special a = false -> escape (String a "") = String a "".
Proof. each_char a; vm_compute; intros H; try reflexivity; discriminate H. Qed.

(** A text without special characters is left as it is. *)
Lemma escape_plain s : any_char is_special s = false -> escape s = s.
Proof.
  induction s as [|a s IH]; [reflexivity|].
  simpl. intros [Ha Hs]%orb_false_iff.
  now rewrite escape_cons, (escape_char_plain a Ha), (IH Hs).
Qed.

Lemma escape_char_special a :
  is_special a = true -> any_char PyFloat.foreign (escape (String a "")) = true.
Proof. each_char a; vm_compute; intros H; try reflexivity; discriminate H. Qed.

Lemma special_is_foreign a : is_special a = true -> PyFloat.foreign a = true.
Proof. each_char a; vm_compute; intros H; try reflexivity; discriminate H. Qed.

(** A text with a special character has, raw and escaped, a character that
    no float literal contains. *)
Lemma escape_special s :
  any_char is_special s = true ->
  any_char PyFloat.foreign s = true /\ any_char PyFloat.foreign (escape s) = true.
Proof.
  induction s as [|a s IH]; [discriminate|].
  simpl. rewrite escape_cons, any_char_app. intros [Ha|Hs]%orb_true_iff.
  - now rewrite (special_is_foreign a Ha), (escape_char_special a Ha).
  - destruct (IH Hs) as [H1 H2]. rewrite H1, H2. now rewrite !orb_true_r.
Qed.

End HtmlFacts.

(** ** [float(s)] *)

Section FloatFacts.

Import PyFloat.

Ltac each_char a := destruct a as [[] [] [] [] [] [] [] []].

Lemma space_not_foreign c : is_space c = true -> foreign c = false.
Proof. unfold foreign, float_char. now intros ->. Qed.

Lemma lstrip_foreign s : Html.any_char foreign s = Html.any_char foreign (lstrip s).
Proof.
  induction s as [|c s IH]; [reflexivity|].
  simpl. destruct (is_space c) eqn:Hc; [|reflexivity].
  now rewrite (space_not_foreign c Hc).
Qed.

Lemma rstrip_empty s : rstrip s = "" -> Html.any_char foreign s = false.
Proof.
  induction s as [|c s IH]; [reflexivity|].
  simpl. destruct (rstrip s) eqn:Hr; [|discriminate].
  destruct (is_space c) eqn:Hc; [|discriminate].
  intros _. now rewrite (space_not_foreign c Hc), IH.
Qed.

Lemma rstrip_foreign s : Html.any_char foreign s = Html.any_char foreign (rstrip s).
Proof.
  induction s as [|c s IH]; [reflexivity|].
  simpl. destruct (rstrip s) as [|c' r] eqn:Hr.
  - rewrite (rstrip_empty s Hr).
    destruct (is_space c) eqn:Hc; [|reflexivity].
    now rewrite (space_not_foreign c Hc).
  - now rewrite IH.
Qed.

Lemma strip_foreign s : Html.any_char foreign s = Html.any_char foreign (strip s).
Proof. unfold strip. now rewrite <- rstrip_foreign, <- lstrip_foreign. Qed.

Lemma split_sign_foreign s :
  Html.any_char foreign s = Html.any_char foreign (snd (split_sign s)).
Proof.
  destruct s as [|c s]; [reflexivity|]. unfold split_sign.
  destruct (Ascii.eqb_spec c "-") as [->|]; [reflexivity|].
  destruct (Ascii.eqb_spec c "+") as [->|]; reflexivity.
Qed.

(** The scanner only moves on the characters of a float literal. *)
Lemma step_not_foreign st c st' : step st c = Some st' -> foreign c = false.
Proof.
  destruct st as [p m nd nf en ex]. unfold step, foreign, float_char, is_exp_mark.
  destruct (is_digit c); [now rewrite !orb_true_r|].
  destruct (Ascii.eqb_spec c ".") as [->|]; [reflexivity|].
  destruct (Ascii.eqb_spec c "e") as [->|]; [reflexivity|].
  destruct (Ascii.eqb_spec c "E") as [->|]; [reflexivity|].
  destruct (Ascii.eqb_spec c "+") as [->|]; [reflexivity|].
  destruct (Ascii.eqb_spec c "-") as [->|]; [reflexivity|].
  destruct p; discriminate.
Qed.

Lemma run_foreign s : forall st st', run st s = Some st' -> Html.any_char foreign s = false.
Proof.
  induction s as [|c s IH]; [reflexivity|].
  intros st st'. simpl. destruct (step st c) as [st1|] eqn:Hstep; [|discriminate].
  intros Hrun. now rewrite (step_not_foreign _ _ _ Hstep), (IH _ _ Hrun).
Qed.

Lemma lower_letter c : is_letter (to_lower c) = true -> foreign c = false.
Proof. each_char c; vm_compute; intros H; try reflexivity; discriminate H. Qed.

Lemma lower_foreign s :
  Html.all_chars is_letter (lower s) = true -> Html.any_char foreign s = false.
Proof.
  induction s as [|c s IH]; [reflexivity|].
  simpl. intros [Hc Hs]%andb_true_iff. now rewrite (lower_letter c Hc), (IH Hs).
Qed.

(** [float] rejects every text with a character that is not of a literal. *)
Lemma float_of_str_foreign s :
  Html.any_char foreign s = true -> float_of_str s = None.
Proof.
  intros Hs. unfold float_of_str.
  rewrite strip_foreign, split_sign_foreign in Hs.
  destruct (split_sign (strip s)) as [neg body]. simpl in Hs.
  destruct (String.eqb_spec (lower body) "inf") as [Hw|_].
  { rewrite lower_foreign in Hs; [discriminate | now rewrite Hw]. }
  destruct (String.eqb_spec (lower body) "infinity") as [Hw|_].
  { rewrite lower_foreign in Hs; [discriminate | now rewrite Hw]. }
  destruct (String.eqb_spec (lower body) "nan") as [Hw|_].
  { rewrite lower_foreign in Hs; [discriminate | now rewrite Hw]. }
  simpl. destruct (run scan_start body) as [st|] eqn:Hrun; [|reflexivity].
  rewrite (run_foreign _ _ _ Hrun) in Hs. discriminate.
Qed.

(** Escaping a text does not change what [float] makes of it. *)
Lemma float_of_str_escape s : float_of_str (Html.escape s) = float_of_str s.
Proof.
  destruct (Html.any_char Html.is_special s) eqn:Hs.
  - destruct (escape_special s Hs) as [H1 H2].
    now rewrite (float_of_str_foreign _ H1), (float_of_str_foreign _ H2).
  - now rewrite (escape_plain s Hs).
Qed.

(** A few conversions: blanks are dropped, a text that is no literal is
    refused, and a literal beyond the range is infinite. *)
Example float_of_str_samples :
  map float_of_str [" 3.5 "; "5"; "n/a"; ""; "1e"; "-1e400"]
  = [Some (S754_finite false 7881299347898368 (-51));
     Some (S754_finite false 5629499534213120 (-50));
     None; None; None; Some (S754_infinity true)].
Proof. vm_compute. reflexivity. Qed.

(** One decimal, rounding the binary value to nearest, ties to even. *)
Example format_1f_samples :
  map (fun s => format_1f <$> float_of_str s)
    ["4"; "0.25"; "0.35"; "0.75"; "-0.04"; "9.96"; "nan"; "-inf"]
  = [Some "4.0"; Some "0.2"; Some "0.3"; Some "0.8"; Some "-0.0"; Some "10.0";
     Some "nan"; Some "-inf"].
Proof. vm_compute. reflexivity. Qed.

Lemma numeric_values_error l e : numeric_values l = inl e -> Py.is_value_error e = true.
Proof.
  revert e. induction l as [|v l IH]; [discriminate|].
  intros e. simpl. destruct (float_of_str v); [|now intros [= <-]].
  destruct (numeric_values l) as [e'|xs]; [|discriminate].
  intros [= <-]. now apply IH.
Qed.

(** When every answer converts, so does every escaped answer, to the same
    numbers. *)
Lemma numeric_values_escaped answers values :
  Forall2 (fun a x => float_of_str a = Some x) answers values ->
  numeric_values (map Html.escape answers) = inr values.
Proof.
  induction 1 as [|a x answers values Ha _ IH]; [reflexivity|].
  simpl. now rewrite float_of_str_escape, Ha, IH.
Qed.

(** When some answer does not convert, the conversion of the escaped answers
    raises [ValueError]. *)
Lemma numeric_values_fails answers :
  Exists (fun a => float_of_str a = None) answers ->
  exists e, numeric_values (map Html.escape answers) = inl e
            /\ Py.is_value_error e = true.
Proof.
  induction 1 as [a answers Ha | a answers _ IH]; simpl; rewrite float_of_str_escape.
  - rewrite Ha. eauto.
  - destruct (float_of_str a); [|eauto].
    destruct IH as (e & -> & He). eauto.
Qed.

End FloatFacts.

(** ** Feedback display *)

Section FeedbackFacts.

Import FeedbackDisplay.

Lemma escaped_answers_map raw_feedback :
  escaped_answers raw_feedback = map (fun item => Html.escape (answer item)) raw_feedback.
Proof.
  unfold escaped_answers.
  enough (H : forall acc,
             fold_left (fun feedback item => feedback ++ [Html.escape (answer item)])
               raw_feedback acc
             = acc ++ map (fun item => Html.escape (answer item)) raw_feedback)
    by apply (H []).
  induction raw_feedback as [|item l IH]; intros acc; simpl.
  - now rewrite app_nil_r.
  - now rewrite IH, <- app_assoc.
Qed.

Lemma eq_question_id_spec text question_id :
  eq_question_id text question_id = true <-> Some text = question_id.
Proof.
  destruct question_id as [q|]; simpl; [|split; discriminate].
  rewrite String.eqb_eq. split; [now intros -> | now intros [= ->]].
Qed.

(** [get_feedback] keeps the items whose question is the block's, in order. *)
Lemma get_feedback_filter self api :
  get_feedback self api =
  filter (fun item => Some (question item) = question_id self)
    (review_items (category self) api).
Proof.
  unfold get_feedback.
  induction (review_items (category self) api) as [|item l IH]; [reflexivity|].
  simpl. rewrite filter_cons, IH.
  destruct (eq_question_id (question item) (question_id self)) eqn:Heq.
  - apply eq_question_id_spec in Heq. now rewrite decide_True.
  - rewrite decide_False; [reflexivity|].
    intros H. apply eq_question_id_spec in H. congruence.
Qed.

Lemma get_feedback_none self api :
  Forall (fun item => Some (question item) <> question_id self)
    (review_items (category self) api) ->
  get_feedback self api = [].
Proof.
  unfold get_feedback.
  induction 1 as [|item l Hitem _ IH]; [reflexivity|].
  simpl. destruct (eq_question_id (question item) (question_id self)) eqn:Heq; [|exact IH].
  apply eq_question_id_spec in Heq. contradiction.
Qed.

Lemma selected_question_silent self qs : Py.trace (selected_question self qs) = [].
Proof.
  unfold selected_question.
  destruct (1 <? length _)%nat; [reflexivity|].
  now destruct (List.filter _ qs).
Qed.

(** [student_view] once the question is found. *)
Lemma student_view_outcome self qs api context q :
  Py.result (selected_question self qs) = inr (Some q) ->
  let feedback := map Html.escape (kept_answers self api) in
  student_view self qs api context =
    if show_mean self then
      Py.Outcome (fst (mean_context feedback (base_context q feedback)))
        (inr (page (context ∪ snd (mean_context feedback (base_context q feedback)))))
    else Py.Outcome [] (inr (page (context ∪ base_context q feedback))).
Proof.
  intros Hsel feedback.
  unfold student_view.
  pose proof (selected_question_silent self qs) as Hsilent.
  destruct (selected_question self qs) as [t r]. simpl in Hsel, Hsilent. subst t r.
  rewrite bind_inr, escaped_answers_map.
  assert (Hfb : map (fun item => Html.escape (answer item)) (get_feedback self api) = feedback).
  { unfold feedback, kept_answers. now rewrite map_map. }
  rewrite Hfb.
  destruct (show_mean self); [|reflexivity].
  unfold mean_context, PyFloat.mean.
  destruct (PyFloat.numeric_values feedback) as [e|[|x xs]] eqn:Hnum.
  - unfold Py.try_except, Py.raise. rewrite bind_inl. cbn [Py.result].
    rewrite (numeric_values_error _ _ Hnum). reflexivity.
  - reflexivity.
  - reflexivity.
Qed.

Lemma student_view_returns self qs api context q :
  Py.result (selected_question self qs) = inr (Some q) ->
  Py.returned (student_view self qs api context).
Proof.
  intros Hsel. rewrite (student_view_outcome self qs api context q Hsel).
  unfold Py.returned. destruct (show_mean self); simpl; eauto.
Qed.

Lemma mean_context_keeps feedback render_context key :
  key <> "mean" ->
  snd (mean_context feedback render_context) !! key = render_context !! key.
Proof.
  intros Hkey. unfold mean_context.
  destruct (PyFloat.numeric_values feedback) as [e|[|x xs]]; simpl;
    now rewrite lookup_insert_ne.
Qed.

Lemma rendered_feedback self qs api context q :
  Py.result (selected_question self qs) = inr (Some q) ->
  context !! "feedback" = None ->
  rendered (student_view self qs api context) "feedback"
  = Some (Py.VList (map Py.VStr (map Html.escape (kept_answers self api)))).
Proof.
  intros Hsel Hctx. rewrite (student_view_outcome self qs api context q Hsel).
  unfold rendered.
  destruct (show_mean self); cbn [Py.result page].
  - rewrite lookup_union_r by exact Hctx.
    rewrite mean_context_keeps by discriminate.
    unfold base_context. now rewrite lookup_insert_eq.
  - rewrite lookup_union_r by exact Hctx.
    unfold base_context. now rewrite lookup_insert_eq.
Qed.

Lemma rendered_mean self qs api context q :
  Py.result (selected_question self qs) = inr (Some q) ->
  show_mean self = true ->
  context !! "mean" = None ->
  let feedback := map Html.escape (kept_answers self api) in
  rendered (student_view self qs api context) "mean"
  = snd (mean_context feedback (base_context q feedback)) !! "mean".
Proof.
  intros Hsel Hshow Hctx feedback.
  rewrite (student_view_outcome self qs api context q Hsel), Hshow.
  unfold rendered. cbn [Py.result page].
  now rewrite lookup_union_r by exact Hctx.
Qed.

(** C7. The feedback shown is, in order, the escaped answer of each item of
    the host's list whose question is equal, as a string, to the configured
    question id, and of no other item; no raw angle bracket or quote is left
    in what is shown. *)
Theorem displayed_feedback_filtered_and_escaped self qs api context q :
  Py.result (selected_question self qs) = inr (Some q) ->
  context !! "feedback" = None ->
  let shown :=
    map (fun item => Html.escape (answer item))
      (filter (fun item => Some (question item) = question_id self)
         (review_items (category self) api)) in
  rendered (student_view self qs api context) "feedback"
    = Some (Py.VList (map Py.VStr shown))
  /\ Forall (fun text => Html.any_char Html.is_markup text = false) shown.
Proof.
  intros Hsel Hctx shown. split.
  - rewrite (rendered_feedback self qs api context q Hsel Hctx).
    unfold shown, kept_answers. rewrite get_feedback_filter.
    do 3 f_equal. apply map_map.
  - unfold shown. apply Forall_map, Forall_forall. intros item _.
    apply escape_no_markup.
Qed.

Lemma displayed_feedback_filtered_and_escaped_witness :
  rendered (student_view Sample.team_display [Sample.score_question]
              Sample.markup_reviews Sample.no_context) "feedback"
  = Some (Py.VList [Py.VStr "&lt;b&gt;good&lt;/b&gt; &amp; fast"; Py.VStr "5"]).
Proof.
  exact (proj1 (displayed_feedback_filtered_and_escaped Sample.team_display
                  [Sample.score_question] Sample.markup_reviews Sample.no_context Sample.score_question
                  eq_refl eq_refl)).
Defined.

(** C3. When no item of the host's list is about the configured question
    and the mean is asked for, the view returns, shows an empty feedback
    list, and shows [N/A] for the mean, not [0.0]. *)
Theorem no_matching_feedback_not_applicable self qs api context q :
  Py.result (selected_question self qs) = inr (Some q) ->
  show_mean self = true ->
  context !! "feedback" = None ->
  context !! "mean" = None ->
  Forall (fun item => Some (question item) <> question_id self)
    (review_items (category self) api) ->
  Py.returned (student_view self qs api context)
  /\ rendered (student_view self qs api context) "feedback" = Some (Py.VList [])
  /\ rendered (student_view self qs api context) "mean" = Some (Py.VStr "N/A")
  /\ rendered (student_view self qs api context) "mean" <> Some (Py.VStr "0.0").
Proof.
  intros Hsel Hshow Hfb Hmean Hnone.
  assert (Hkept : kept_answers self api = [])
    by (unfold kept_answers; now rewrite (get_feedback_none self api Hnone)).
  assert (Hna : rendered (student_view self qs api context) "mean" = Some (Py.VStr "N/A")).
  { rewrite (rendered_mean self qs api context q Hsel Hshow Hmean), Hkept.
    unfold mean_context. simpl. now rewrite lookup_insert_eq. }
  split; [exact (student_view_returns self qs api context q Hsel)|].
  split; [|split].
  - rewrite (rendered_feedback self qs api context q Hsel Hfb), Hkept. reflexivity.
  - exact Hna.
  - rewrite Hna. discriminate.
Qed.

Lemma no_matching_feedback_not_applicable_witness :
  rendered (student_view Sample.team_display [Sample.score_question]
              Sample.other_reviews Sample.no_context) "feedback" = Some (Py.VList [])
  /\ rendered (student_view Sample.team_display [Sample.score_question]
                 Sample.other_reviews Sample.no_context) "mean" = Some (Py.VStr "N/A").
Proof.
  assert (Hnone : Forall (fun item => Some (question item) <> Some "q1")
                    [Sample.review "q2" "1"; Sample.review "Q1" "4"])
    by (repeat constructor; discriminate).
  destruct (no_matching_feedback_not_applicable Sample.team_display [Sample.score_question]
              Sample.other_reviews Sample.no_context Sample.score_question
              eq_refl eq_refl eq_refl eq_refl Hnone) as (_ & Hfb & Hmean & _).
  split; assumption.
Defined.

(** C4. With the mean asked for the view returns whatever the answers are.
    When every answer kept converts to a number, the mean shown is the
    arithmetic mean of those numbers with one decimal; when any answer kept
    does not convert, the mean shown is [N/A]. *)
Theorem mean_is_all_or_nothing self qs api context q :
  Py.result (selected_question self qs) = inr (Some q) ->
  show_mean self = true ->
  context !! "mean" = None ->
  Py.returned (student_view self qs api context)
  /\ (forall values,
       values <> [] ->
       Forall2 (fun a x => PyFloat.float_of_str a = Some x) (kept_answers self api) values ->
       rendered (student_view self qs api context) "mean"
       = Some (Py.VStr (PyFloat.format_1f (PyFloat.arithmetic_mean values))))
  /\ (Exists (fun a => PyFloat.float_of_str a = None) (kept_answers self api) ->
       rendered (student_view self qs api context) "mean" = Some (Py.VStr "N/A")).
Proof.
  intros Hsel Hshow Hmean.
  split; [exact (student_view_returns self qs api context q Hsel)|].
  split.
  - intros values Hne Hall.
    rewrite (rendered_mean self qs api context q Hsel Hshow Hmean).
    unfold mean_context. rewrite (numeric_values_escaped _ _ Hall).
    destruct values as [|x xs]; [contradiction|].
    simpl. now rewrite lookup_insert_eq.
  - intros Hbad.
    rewrite (rendered_mean self qs api context q Hsel Hshow Hmean).
    unfold mean_context.
    destruct (numeric_values_fails _ Hbad) as (e & -> & _).
    simpl. now rewrite lookup_insert_eq.
Qed.

Lemma mean_is_all_or_nothing_witness :
  rendered (student_view Sample.team_display [Sample.score_question]
              Sample.numeric_reviews Sample.no_context) "mean" = Some (Py.VStr "4.0")
  /\ rendered (student_view Sample.team_display [Sample.score_question]
                 Sample.mixed_reviews Sample.no_context) "mean" = Some (Py.VStr "N/A").
Proof.
  split.
  - destruct (mean_is_all_or_nothing Sample.team_display [Sample.score_question]
                Sample.numeric_reviews Sample.no_context Sample.score_question eq_refl eq_refl eq_refl)
      as (_ & Hnum & _).
    refine (Hnum [PyFloat.of_Z 3; PyFloat.of_Z 5] _ _); [discriminate|].
    repeat constructor.
  - destruct (mean_is_all_or_nothing Sample.team_display [Sample.score_question]
                Sample.mixed_reviews Sample.no_context Sample.score_question eq_refl eq_refl eq_refl)
      as (_ & _ & Hbad).
    apply Hbad. apply Exists_cons_tl, Exists_cons_hd. reflexivity.
Defined.

End FeedbackFacts.

(** ** Review question *)

Section ReviewQuestionFacts.

Import ReviewQuestion.

Variable fromstring : string -> Py.exn + element.
Variable outer_html : element -> string.

(** The value of [message_tpl.format(...)], which the handler drops. *)
Lemma parse_message_eq (self : block) :
  Py.format message_tpl []
    [("question_id", question_id self); ("content", question_content self)]
  = Py.Outcome [] (inr (formatted_message self)).
Proof. unfold Py.format, formatted_message. f_equal. Qed.

(** C2, as the code has it. When the XML parser raises [ParseError] on the
    question content, [render_content] handles it and returns the empty
    string; nothing is raised. The one text it logs is the template itself,
    placeholders included, whatever the content is. *)
Theorem render_content_parse_failure (self : block) (stage_is_closed : bool) (e : Py.exn) :
  fromstring (question_content self) = inl e ->
  Py.exc_type e = Py.ParseError ->
  render_content fromstring outer_html self stage_is_closed
  = Py.Outcome [Py.Log Py.ERROR (Py.LogText message_tpl)] (inr "").
Proof.
  intros Hparse Hclass. unfold render_content, Py.is_parse_error.
  rewrite Hparse, Hclass, parse_message_eq. reflexivity.
Qed.

End ReviewQuestionFacts.

(** On the content [<input], which is not well-formed, the text logged does
    not contain the content; the formatted message would. *)
Lemma render_content_parse_failure_witness :
  ReviewQuestion.render_content Sample.one_document_parser Sample.tag_only
    Sample.broken_question false
  = Py.Outcome [Py.Log Py.ERROR (Py.LogText ReviewQuestion.message_tpl)] (inr "")
  /\ Py.contains "<input" ReviewQuestion.message_tpl = false
  /\ Py.contains "<input" (ReviewQuestion.formatted_message Sample.broken_question) = true.
Proof.
  split; [|split; reflexivity].
  exact (render_content_parse_failure Sample.one_document_parser Sample.tag_only
           Sample.broken_question false Sample.syntax_error eq_refl eq_refl).
Defined.

(** A well-formed question is rendered with its name, id and classes set. *)
Example render_content_well_formed :
  ReviewQuestion.render_content Sample.one_document_parser Sample.tag_only
    Sample.score_question false
  = Py.Outcome [] (inr "<input class='answer editable'/>").
Proof. reflexivity. Qed.
(** ** More on the submission block *)

Section SubmissionMore.

Import Submission SubmissionView.

Lemma allowed_data (self : block) st h params :
  available_now st = true -> is_group_member st = true ->
  upload_submission_data self st h params = upload_relay self st h params.
Proof.
  intros Hav Hmem. apply allowed_runs_relay. unfold uploading_allowed. now rewrite Hav, Hmem.
Qed.

(** The three ways the relay branch ends, as responses. *)
Lemma allowed_relay_raises (self : block) st h params e :
  available_now st = true -> is_group_member st = true ->
  Py.result (relay self st h params) = inl e ->
  upload_submission self st h params =
    Py.Outcome (Py.trace (relay self st h params) ++ [Py.Log Py.ERROR (Py.LogExn e)])
      (inr {| body := failure_data e success_data;
              status_code := http_status (failure_code_of e) |}).
Proof.
  intros Hav Hmem He. apply upload_submission_response.
  rewrite (allowed_data self st h params Hav Hmem).
  now apply upload_relay_relay_raises.
Qed.

Lemma allowed_completion_raises (self : block) st h params uploaded_file e :
  available_now st = true -> is_group_member st = true ->
  Py.result (relay self st h params) = inr uploaded_file ->
  Py.result (completion h) = inl e ->
  upload_submission self st h params =
    Py.Outcome (Py.trace (relay self st h params) ++ Py.trace (completion h)
                ++ [Py.Log Py.ERROR (Py.LogExn e)])
      (inr {| body := failure_data e (with_submission uploaded_file success_data);
              status_code := http_status (failure_code_of e) |}).
Proof.
  intros Hav Hmem Hr Hc. apply upload_submission_response.
  rewrite (allowed_data self st h params Hav Hmem).
  now apply upload_relay_completion_raises.
Qed.

Lemma allowed_succeeds (self : block) st h params uploaded_file new_state :
  available_now st = true -> is_group_member st = true ->
  Py.result (relay self st h params) = inr uploaded_file ->
  Py.result (completion h) = inr new_state ->
  upload_submission self st h params =
    Py.Outcome (Py.trace (relay self st h params) ++ Py.trace (completion h))
      (inr {| body := <["new_stage_states" := Py.VList [new_state]]>
                        (with_submission uploaded_file success_data);
              status_code := 200 |}).
Proof.
  intros Hav Hmem Hr Hc.
  apply (upload_submission_response self st h params _ _ 0).
  rewrite (allowed_data self st h params Hav Hmem).
  now apply upload_relay_succeeds.
Qed.

Lemma persist_trace_relay_calls (self : block) h activity context file_stream :
  forallb relay_call
    (Py.trace (persist_and_submit_file self h activity context file_stream)) = true.
Proof.
  destruct (save_file h) as [e|[]] eqn:Hs.
  { now rewrite (persist_save_fails self h activity context file_stream e Hs). }
  destruct (submit h) as [e|[sid url]] eqn:Hr.
  { now rewrite (persist_submit_fails self h activity context file_stream e Hs Hr). }
  destruct (publish h) as [e|[]] eqn:Hp.
  { now rewrite (persist_publish_fails self h activity context file_stream sid url e Hs Hr Hp). }
  destruct (notifications_service h) as [service|] eqn:Hn.
  - now rewrite (persist_with_notifications self h activity context file_stream sid url
                 service _ Hs Hr Hp Hn eq_refl).
  - now rewrite (persist_without_notifications self h activity context file_stream sid url
                 Hs Hr Hp Hn).
Qed.

Lemma relay_without_file (self : block) st h params :
  params !! upload_id self = None ->
  relay self st h params = Py.Outcome [] (inl (Py.Exn Py.KeyError (Some (upload_id self)))).
Proof. intros Hf. unfold relay, request_file. now rewrite Hf. Qed.

Lemma relay_trace_relay_calls (self : block) st h params :
  forallb relay_call (Py.trace (relay self st h params)) = true.
Proof.
  destruct (params !! upload_id self) as [f|] eqn:Hf.
  - rewrite (relay_with_file self st h params f Hf). apply persist_trace_relay_calls.
  - now rewrite (relay_without_file self st h params Hf).
Qed.

Lemma filter_none {A} (p q : A -> bool) (l : list A) :
  forallb p l = true -> (forall x, p x = true -> q x = false) -> List.filter q l = [].
Proof.
  intros Hall Hpq. induction l as [|x l IH]; [reflexivity|].
  simpl in *. apply andb_true_iff in Hall as [Hx Hl].
  now rewrite (Hpq x Hx), IH.
Qed.

Lemma relay_call_not_log ev : relay_call ev = true -> is_log ev = false.
Proof. now destruct ev. Qed.

Lemma relay_call_not_completion ev : relay_call ev = true -> is_completion_call ev = false.
Proof. now destruct ev. Qed.

Lemma completion_trace_no_log (h : host) : List.filter is_log (Py.trace (completion h)) = [].
Proof.
  unfold completion.
  destruct (check_submissions_and_mark_complete h) as [e|[]];
    destruct (get_new_stage_state_data h); reflexivity.
Qed.

(** X2. The response carries the title [Upload complete.] exactly when the
    stage is available, the requester is a group member, the relay returned
    and the completion step returned. Then the status is 200, the body has
    the keys [submissions] and [new_stage_states], and nothing was logged. *)
Theorem success_title_iff_every_step (self : block) st h params response :
  Py.result (upload_submission self st h params) = inr response ->
  (body response !! "title" = Some (Py.VStr SUCCESSFUL_UPLOAD_TITLE)
   <-> available_now st = true /\ is_group_member st = true
       /\ Py.returned (relay self st h params) /\ Py.returned (completion h))
  /\ (body response !! "title" = Some (Py.VStr SUCCESSFUL_UPLOAD_TITLE) ->
      status_code response = 200
      /\ is_Some (body response !! "submissions")
      /\ is_Some (body response !! "new_stage_states")
      /\ List.filter is_log (Py.trace (upload_submission self st h params)) = []).
Proof.
  unfold Py.returned.
  destruct (available_now st) eqn:Hav.
  2:{ rewrite (denied_timing self st h params Hav). intros [= <-]. cbn [body].
      split; [split|]; [by simplify_map_eq | intros (H & _); discriminate
                       | by simplify_map_eq]. }
  destruct (is_group_member st) eqn:Hmem.
  2:{ rewrite (denied_membership self st h params Hav Hmem). intros [= <-]. cbn [body].
      split; [split|]; [by simplify_map_eq | intros (_ & H & _); discriminate
                       | by simplify_map_eq]. }
  destruct (Py.result (relay self st h params)) as [e|uploaded_file] eqn:Hr.
  { rewrite (allowed_relay_raises self st h params e Hav Hmem Hr). intros [= <-].
    cbn [body]. unfold failure_data.
    split; [split|]; [by simplify_map_eq | intros (_ & _ & [? H] & _); discriminate
                     | by simplify_map_eq]. }
  destruct (Py.result (completion h)) as [e|new_state] eqn:Hc.
  { rewrite (allowed_completion_raises self st h params _ e Hav Hmem Hr Hc). intros [= <-].
    cbn [body]. unfold failure_data.
    split; [split|]; [by simplify_map_eq | intros (_ & _ & _ & [? H]); discriminate
                     | by simplify_map_eq]. }
  rewrite (allowed_succeeds self st h params _ _ Hav Hmem Hr Hc). intros [= <-].
  cbn [body status_code Py.trace]. unfold with_submission, success_data.
  split; [split|].
  - intros _. repeat split; eauto.
  - intros _. by simplify_map_eq.
  - intros _. repeat split; try (by simplify_map_eq).
    rewrite List.filter_app, completion_trace_no_log, app_nil_r.
    apply (filter_none relay_call); [apply relay_trace_relay_calls | apply relay_call_not_log].
Qed.

(** X3. On an available stage and for a group member, a request without the
    file field makes no call to the host: the [KeyError] is logged and
    answered with status 500 and the upload id as the error text. *)
Theorem missing_file_is_reported (self : block) st h params :
  available_now st = true -> is_group_member st = true ->
  params !! upload_id self = None ->
  upload_submission self st h params =
    Py.Outcome [Py.Log Py.ERROR (Py.LogExn (Py.Exn Py.KeyError (Some (upload_id self))))]
      (inr {| body :=
                <["message" := Py.VStr ("Error uploading file: " +:+ upload_id self)]>
                  (<["title" := Py.VStr FAILED_UPLOAD_TITLE]> success_data);
              status_code := 500 |}).
Proof.
  intros Hav Hmem Hf.
  pose proof (relay_without_file self st h params Hf) as Hrelay.
  rewrite (allowed_relay_raises self st h params _ Hav Hmem
             (f_equal Py.result Hrelay)), Hrelay.
  reflexivity.
Qed.

Ltac settle :=
  intros;
  repeat match goal with
         | H : _ /\ _ |- _ => destruct H
         | H : exists _, _ |- _ => destruct H
         | H : is_Some _ |- _ => destruct H
         end;
  try discriminate; try lia; eauto.

(** X4. [persist_and_submit_file] calls [save_file] exactly once, calls
    [submit] exactly when the save returned, publishes exactly when the
    recording returned, and fires the notification exactly when the publish
    returned and the service is there; it makes at most four calls. *)
Theorem relay_calls_follow_success (self : block) h activity context file_stream :
  let calls := Py.trace (persist_and_submit_file self h activity context file_stream) in
  List.filter is_save calls = [Py.SaveFile (name file_stream) (upload_id self) context]
  /\ (existsb is_submit calls = true <-> save_file h = inr tt)
  /\ (existsb is_publish calls = true <->
      save_file h = inr tt /\ exists sid url, submit h = inr (sid, url))
  /\ (existsb is_notification calls = true <->
      save_file h = inr tt /\ (exists sid url, submit h = inr (sid, url))
      /\ publish h = inr tt /\ is_Some (notifications_service h))
  /\ (length calls <= 4)%nat.
Proof.
  intros calls. unfold calls.
  destruct (save_file h) as [e|[]] eqn:Hs.
  { rewrite (persist_save_fails self h activity context file_stream e Hs). simpl.
    repeat split; settle. }
  destruct (submit h) as [e|[sid url]] eqn:Hr.
  { rewrite (persist_submit_fails self h activity context file_stream e Hs Hr). simpl.
    repeat split; settle. }
  destruct (publish h) as [e|[]] eqn:Hp.
  { rewrite (persist_publish_fails self h activity context file_stream sid url e Hs Hr Hp).
    simpl. repeat split; settle. }
  destruct (notifications_service h) as [service|] eqn:Hn.
  - rewrite (persist_with_notifications self h activity context file_stream sid url
               service _ Hs Hr Hp Hn eq_refl). simpl.
    repeat split; settle.
  - rewrite (persist_without_notifications self h activity context file_stream sid url
               Hs Hr Hp Hn). simpl.
    repeat split; settle.
Qed.

(** X5. When the relay raises, the handler neither checks the submissions
    nor asks for the new stage state, and the failure report has no
    [submissions] and no [new_stage_states] entry. *)
Theorem failed_relay_skips_completion (self : block) st h params e :
  available_now st = true -> is_group_member st = true ->
  Py.result (relay self st h params) = inl e ->
  List.filter is_completion_call (Py.trace (upload_submission self st h params)) = []
  /\ exists response,
       Py.result (upload_submission self st h params) = inr response
       /\ body response !! "submissions" = None
       /\ body response !! "new_stage_states" = None
       /\ body response !! "title" = Some (Py.VStr FAILED_UPLOAD_TITLE).
Proof.
  intros Hav Hmem He.
  rewrite (allowed_relay_raises self st h params e Hav Hmem He). cbn [Py.trace Py.result].
  split.
  - rewrite List.filter_app. simpl. rewrite app_nil_r.
    apply (filter_none relay_call);
      [apply relay_trace_relay_calls | apply relay_call_not_completion].
  - eexists. split; [reflexivity|]. cbn [body]. unfold failure_data, success_data.
    repeat split; by simplify_map_eq.
Qed.

(** X6. When the file is saved, recorded and published and firing the
    notification raises, the exception leaves the relay as it is (its message
    is not rewritten) and the upload is answered as failed, without a
    [submissions] entry although the submission was recorded. *)
Theorem notification_failure_fails_upload (self : block) st h params f sid url service e :
  available_now st = true -> is_group_member st = true ->
  params !! upload_id self = Some f ->
  save_file h = inr tt -> submit h = inr (sid, url) -> publish h = inr tt ->
  notifications_service h = Some service ->
  fire_file_upload_notification h = inl e ->
  Py.result (relay self st h params) = inl e
  /\ upload_submission self st h params =
     Py.Outcome
       [Py.SaveFile (name f) (upload_id self) (upload_context (stage_activity st));
        Py.Submit (name f);
        Py.Publish SUBMISSION_RECEIVED_EVENT
          (submission_payload (stage_activity st)
             {| file := f; submission_id := sid; file_url := url |});
        Py.FireFileUploadNotification service;
        Py.Log Py.ERROR (Py.LogExn e)]
       (inr {| body := failure_data e success_data;
               status_code := http_status (failure_code_of e) |})
  /\ failure_data e success_data !! "submissions" = None.
Proof.
  intros Hav Hmem Hf Hs Hr Hp Hn Hfire.
  assert (Hrelay : relay self st h params =
            Py.Outcome
              [Py.SaveFile (name f) (upload_id self) (upload_context (stage_activity st));
               Py.Submit (name f);
               Py.Publish SUBMISSION_RECEIVED_EVENT
                 (submission_payload (stage_activity st)
                    {| file := f; submission_id := sid; file_url := url |});
               Py.FireFileUploadNotification service]
              (inl e)).
  { rewrite (relay_with_file self st h params f Hf).
    now rewrite (persist_with_notifications self h _ _ f sid url service _ Hs Hr Hp Hn Hfire). }
  split; [now rewrite Hrelay|]. split.
  - rewrite (allowed_relay_raises self st h params e Hav Hmem (f_equal Py.result Hrelay)).
    now rewrite Hrelay.
  - unfold failure_data, success_data. by simplify_map_eq.
Qed.

End SubmissionMore.

Lemma success_title_iff_every_step_witness :
  Py.result (Submission.upload_submission Sample.essay Sample.open_stage Sample.quiet_host
               Sample.one_file)
  = inr {| Submission.body :=
             <["new_stage_states" := Py.VList [Py.VStr "completed"]]>
               (Submission.with_submission Sample.stored_report Submission.success_data);
           Submission.status_code := 200 |}
  /\ List.filter SubmissionView.is_log
       (Py.trace (Submission.upload_submission Sample.essay Sample.open_stage
                    Sample.quiet_host Sample.one_file)) = [].
Proof.
  split; [reflexivity|].
  destruct (success_title_iff_every_step Sample.essay Sample.open_stage Sample.quiet_host
              Sample.one_file _ eq_refl) as [Hiff Hthen].
  assert (Hok : Submission.available_now Sample.open_stage = true
                /\ Submission.is_group_member Sample.open_stage = true
                /\ Py.returned (Submission.relay Sample.essay Sample.open_stage
                                  Sample.quiet_host Sample.one_file)
                /\ Py.returned (Submission.completion Sample.quiet_host)).
  { repeat split; eexists; reflexivity. }
  exact (proj2 (proj2 (proj2 (Hthen (proj2 Hiff Hok))))).
Defined.

Lemma missing_file_is_reported_witness :
  Submission.upload_submission Sample.essay Sample.open_stage Sample.good_host
    MoreSamples.no_file
  = Py.Outcome [Py.Log Py.ERROR (Py.LogExn (Py.Exn Py.KeyError (Some "doc1")))]
      (inr {| Submission.body :=
                <["message" := Py.VStr "Error uploading file: doc1"]>
                  (<["title" := Py.VStr "Upload failed."]> Submission.success_data);
              Submission.status_code := 500 |}).
Proof.
  exact (missing_file_is_reported Sample.essay Sample.open_stage Sample.good_host
           MoreSamples.no_file eq_refl eq_refl eq_refl).
Defined.

Lemma failed_relay_skips_completion_witness :
  List.filter SubmissionView.is_completion_call
    (Py.trace (Submission.upload_submission Sample.essay Sample.open_stage
                 Sample.storage_down_host Sample.one_file)) = [].
Proof.
  exact (proj1 (failed_relay_skips_completion Sample.essay Sample.open_stage
                  Sample.storage_down_host Sample.one_file
                  (Py.Exn (Py.OtherException "IOError")
                     (Some "Error storing file report.pdf - disk full"))
                  eq_refl eq_refl eq_refl)).
Defined.

Lemma notification_failure_fails_upload_witness :
  Py.result (Submission.upload_submission Sample.essay Sample.open_stage
               MoreSamples.notifier_down_host Sample.one_file)
  = inr {| Submission.body :=
             <["message" := Py.VStr "Error uploading file: Unknown error"]>
               (<["title" := Py.VStr "Upload failed."]> Submission.success_data);
           Submission.status_code := 500 |}.
Proof.
  destruct (notification_failure_fails_upload Sample.essay Sample.open_stage
              MoreSamples.notifier_down_host Sample.one_file Sample.report
              "s-41" "http://x/report.pdf" "notifications" MoreSamples.notifier_error
              eq_refl eq_refl eq_refl eq_refl eq_refl eq_refl eq_refl eq_refl)
    as (_ & Hout & _).
  exact (f_equal Py.result Hout).
Defined.

Section SubmissionViewFacts.

Import Submission SubmissionView.

Variable date : Type.
Variable build_date_field : string -> date.
Variable format_date : date -> string.
Variable local_resource_url : string -> string.

Lemma submissions_view_disabled (self : block) st project_api context :
  context !! "disabled" = None ->
  View.template_value
    (submissions_view date build_date_field format_date local_resource_url
       self st project_api context) "disabled"
  = Some (View.TBool (negb (available_now st && is_group_member st))).
Proof.
  intros Hctx. unfold submissions_view, View.template_value, View.update. simpl.
  rewrite lookup_union_r by exact Hctx. now rewrite lookup_insert_eq.
Qed.

Ltac answer :=
  eexists; split; [reflexivity|]; split; [reflexivity|];
  cbn [body status_code Py.trace negb andb];
  unfold failure_data, with_submission, success_data;
  repeat split; intros; repeat split; auto; try discriminate; try (by simplify_map_eq).

(** X7. [submissions_view] disables the upload control exactly when
    [upload_submission] would answer with an error result: a disabled
    control goes with status 422 or 403 and no call, an enabled one with a
    titled report. *)
Theorem upload_button_matches_handler (self : block) st project_api context h params :
  context !! "disabled" = None ->
  exists disabled response,
    View.template_value
      (submissions_view date build_date_field format_date local_resource_url
         self st project_api context) "disabled" = Some (View.TBool disabled)
    /\ Py.result (upload_submission self st h params) = inr response
    /\ (disabled = true <-> body response !! "result" = Some (Py.VStr "error"))
    /\ (disabled = true ->
        Py.trace (upload_submission self st h params) = []
        /\ (status_code response = 422 \/ status_code response = 403))
    /\ (disabled = false -> is_Some (body response !! "title")).
Proof.
  intros Hctx.
  exists (negb (available_now st && is_group_member st)).
  rewrite (submissions_view_disabled self st project_api context Hctx).
  destruct (available_now st) eqn:Hav.
  2:{ rewrite (denied_timing self st h params Hav). answer. }
  destruct (is_group_member st) eqn:Hmem.
  2:{ rewrite (denied_membership self st h params Hav Hmem). answer. }
  destruct (Py.result (relay self st h params)) as [e|uploaded_file] eqn:Hr.
  { rewrite (allowed_relay_raises self st h params e Hav Hmem Hr). answer. }
  destruct (Py.result (completion h)) as [e|new_state] eqn:Hc.
  { rewrite (allowed_completion_raises self st h params _ e Hav Hmem Hr Hc). answer. }
  rewrite (allowed_succeeds self st h params _ _ Hav Hmem Hr Hc). answer.
Qed.

(** X8. [get_upload] reads the entry under the block's own upload id and
    nothing else: it returns the four fields of an entry stored under that
    id, is unchanged by storing or deleting any other key, and returns
    nothing once its key is deleted. *)
Theorem get_upload_follows_own_entry (self : block)
    (submission_map : gmap string submission_data) (group_id : string) :
  (forall entry,
     get_upload date build_date_field format_date self
       (fun _ => <[upload_id self := entry]> submission_map) group_id
     = Some {| location := document_url entry;
               file_name := document_filename entry;
               submission_date := format_date (build_date_field (modified entry));
               upload_user_details := user_details entry |})
  /\ (forall key entry, key <> upload_id self ->
      get_upload date build_date_field format_date self
        (fun _ => <[key := entry]> submission_map) group_id
      = get_upload date build_date_field format_date self (fun _ => submission_map) group_id)
  /\ (forall key, key <> upload_id self ->
      get_upload date build_date_field format_date self
        (fun _ => delete key submission_map) group_id
      = get_upload date build_date_field format_date self (fun _ => submission_map) group_id)
  /\ get_upload date build_date_field format_date self
       (fun _ => delete (upload_id self) submission_map) group_id = None.
Proof.
  unfold get_upload. repeat split.
  - intros entry. now rewrite lookup_insert_eq.
  - intros key entry Hkey. now rewrite lookup_insert_ne.
  - intros key Hkey. now rewrite lookup_delete_ne.
  - now rewrite lookup_delete_eq.
Qed.

End SubmissionViewFacts.

Lemma upload_button_matches_handler_witness :
  View.template_value
    (SubmissionView.submissions_view string Sample.keep_date Sample.show_date
       MoreSamples.resource_url Sample.essay Sample.closed_stage
       (fun _ => Sample.submission_map) MoreSamples.no_values) "disabled"
  = Some (View.TBool true)
  /\ Py.trace (Submission.upload_submission Sample.essay Sample.closed_stage
                 Sample.good_host Sample.one_file) = [].
Proof.
  destruct (upload_button_matches_handler string Sample.keep_date Sample.show_date
              MoreSamples.resource_url Sample.essay Sample.closed_stage
              (fun _ => Sample.submission_map) MoreSamples.no_values Sample.good_host
              Sample.one_file eq_refl)
    as (disabled & response & Hview & Hres & Hiff & Hoff & _).
  assert (Hdisabled : disabled = true).
  { apply Hiff. injection Hres as <-. reflexivity. }
  split.
  - rewrite Hview, Hdisabled. reflexivity.
  - exact (proj1 (Hoff Hdisabled)).
Defined.

(** ** More on the review question *)

Section QuestionMore.

Import ReviewQuestion QuestionView.

Variable fromstring : string -> Py.exn + element.
Variable outer_html : element -> string.
Variable local_resource_url : string -> string.

(** The element handed to [outer_html] for a parsed [node]. *)
Lemma render_content_parsed (self : block) (stage_is_closed : bool) (node : element) :
  fromstring (question_content self) = inr node ->
  exists rendered,
    render_content fromstring outer_html self stage_is_closed
      = Py.Outcome [] (inr (outer_html rendered))
    /\ tag rendered = tag node
    /\ inner rendered = inner node
    /\ exists cls,
         attrib rendered =
           <["class" := cls]>
             ((if stage_is_closed then <["disabled" := "disabled"]> else id)
                (<["id" := question_id self]> (<["name" := question_id self]> (attrib node))))
         /\ cls = join " "
                    (((["answer"] ++ (if truthy (attrib node !! "class")
                                      then [default "" (attrib node !! "class")] else []))
                      ++ (if single_line self then ["side"] else []))
                     ++ (if stage_is_closed then [] else ["editable"])).
Proof.
  intros Hparse. unfold render_content. rewrite Hparse.
  assert (Hcur : get (set (set node "name" (question_id self)) "id" (question_id self)) "class"
                 = attrib node !! "class").
  { unfold get, set. simpl. now rewrite !lookup_insert_ne. }
  rewrite Hcur.
  destruct (truthy (attrib node !! "class")), (single_line self), stage_is_closed;
    simpl; eexists; (split; [reflexivity|]); simpl; repeat split; eexists; split;
    reflexivity.
Qed.

(** X9. For well-formed content [render_content] logs nothing and prints the
    parsed element with [name] and [id] set to the question id; the tag, the
    text and children, and every attribute other than [name], [id], [class]
    and [disabled] are as parsed. *)
Theorem render_content_names_the_control (self : block) (stage_is_closed : bool)
    (node : element) :
  fromstring (question_content self) = inr node ->
  exists rendered,
    render_content fromstring outer_html self stage_is_closed
      = Py.Outcome [] (inr (outer_html rendered))
    /\ tag rendered = tag node
    /\ inner rendered = inner node
    /\ get rendered "name" = Some (question_id self)
    /\ get rendered "id" = Some (question_id self)
    /\ (forall key,
          key <> "name" -> key <> "id" -> key <> "class" -> key <> "disabled" ->
          get rendered key = get node key).
Proof.
  intros Hparse.
  destruct (render_content_parsed self stage_is_closed node Hparse)
    as (rendered & Hout & Htag & Hinner & cls & Hattrib & _).
  exists rendered. unfold get. rewrite Hattrib.
  repeat split; try assumption.
  - destruct stage_is_closed; by simplify_map_eq.
  - destruct stage_is_closed; by simplify_map_eq.
  - intros key H1 H2 H3 H4. destruct stage_is_closed; by simplify_map_eq.
Qed.

Lemma join_snoc sep (words : list string) (w : string) :
  words <> [] -> join sep (words ++ [w]) = join sep words +:+ sep +:+ w.
Proof.
  induction words as [|a words IH]; [contradiction|]. intros _.
  destruct words as [|b words].
  - reflexivity.
  - change (join sep ((a :: b :: words) ++ [w]))
      with (a +:+ sep +:+ join sep ((b :: words) ++ [w])).
    rewrite IH by discriminate.
    change (join sep (a :: b :: words)) with (a +:+ sep +:+ join sep (b :: words)).
    now rewrite !append_assoc.
Qed.

(** X10. The class of the rendered control starts with [answer] and keeps
    a non-empty class of the content right after it. On a closed stage the
    control gets [disabled="disabled"]; on an open one [disabled] is as in the
    content and the class ends with [editable]. *)
Theorem render_content_open_and_closed (self : block) (stage_is_closed : bool)
    (node : element) :
  fromstring (question_content self) = inr node ->
  exists rendered cls,
    render_content fromstring outer_html self stage_is_closed
      = Py.Outcome [] (inr (outer_html rendered))
    /\ get rendered "class" = Some cls
    /\ (exists rest, cls = "answer" +:+ rest)
    /\ (forall c, get node "class" = Some c -> c <> "" ->
          exists rest, cls = "answer " +:+ c +:+ rest)
    /\ (stage_is_closed = true -> get rendered "disabled" = Some "disabled")
    /\ (stage_is_closed = false ->
          get rendered "disabled" = get node "disabled"
          /\ exists before, cls = before +:+ " editable").
Proof.
  intros Hparse.
  destruct (render_content_parsed self stage_is_closed node Hparse)
    as (rendered & Hout & _ & _ & cls & Hattrib & Hcls).
  exists rendered, cls. unfold get. rewrite Hattrib.
  split; [exact Hout|]. split; [by simplify_map_eq|].
  split; [|split; [|split]].
  - rewrite Hcls.
    destruct (truthy (attrib node !! "class")), (single_line self), stage_is_closed;
      eexists; reflexivity.
  - intros c Hc Hne. rewrite Hcls, Hc.
    assert (Ht : truthy (Some c) = true) by (destruct c; [contradiction|reflexivity]).
    rewrite Ht. cbn [default from_option app].
    destruct (single_line self), stage_is_closed; cbn [app].
    all: first [ exists ""; rewrite append_empty_r; reflexivity
               | eexists; reflexivity ].
  - intros ->. by simplify_map_eq.
  - intros ->. split; [by simplify_map_eq|].
    rewrite Hcls. eexists. apply join_snoc.
    destruct (truthy (attrib node !! "class")), (single_line self); discriminate.
Qed.



End QuestionMore.

Lemma render_content_names_the_control_witness :
  exists rendered,
    ReviewQuestion.render_content Sample.one_document_parser Sample.tag_only
      Sample.score_question false
      = Py.Outcome [] (inr (Sample.tag_only rendered))
    /\ ReviewQuestion.get rendered "name" = Some "q1"
    /\ ReviewQuestion.get rendered "type" = Some "text".
Proof.
  destruct (render_content_names_the_control Sample.one_document_parser Sample.tag_only
              Sample.score_question false Sample.text_input eq_refl)
    as (rendered & Hout & _ & _ & Hname & _ & Hkeep).
  exists rendered. split; [exact Hout|]. split; [exact Hname|].
  rewrite Hkeep by discriminate. reflexivity.
Defined.

Lemma render_content_open_and_closed_witness :
  exists rendered cls,
    ReviewQuestion.render_content Sample.one_document_parser Sample.tag_only
      Sample.score_question true
      = Py.Outcome [] (inr (Sample.tag_only rendered))
    /\ ReviewQuestion.get rendered "class" = Some cls
    /\ ReviewQuestion.get rendered "disabled" = Some "disabled".
Proof.
  destruct (render_content_open_and_closed Sample.one_document_parser Sample.tag_only
              Sample.score_question true Sample.text_input eq_refl)
    as (rendered & cls & Hout & Hcls & _ & _ & Hclosed & _).
  exists rendered, cls. split; [exact Hout|]. split; [exact Hcls|]. exact (Hclosed eq_refl).
Defined.


(** ** More on the feedback display *)

Section FeedbackMore.

Import FeedbackDisplay FeedbackAdmin.

Lemma matching_questions_filter (self : block) qs :
  List.filter (fun q => eq_question_id (ReviewQuestion.question_id q) (question_id self)) qs
  = matching_questions self qs.
Proof.
  unfold matching_questions.
  induction qs as [|q qs IH]; [reflexivity|].
  simpl. rewrite filter_cons, IH.
  destruct (eq_question_id (ReviewQuestion.question_id q) (question_id self)) eqn:Heq.
  - apply eq_question_id_spec in Heq. now rewrite decide_True.
  - rewrite decide_False; [reflexivity|].
    intros H. apply eq_question_id_spec in H. congruence.
Qed.

(** [selected_question] by the number of matching questions. *)
Lemma selected_question_cases (self : block) qs :
  selected_question self qs =
    match matching_questions self qs with
    | [] => Py.Outcome [] (inr None)
    | [q] => Py.Outcome [] (inr (Some q))
    | _ => Py.Outcome [] (inl (Py.Exn Py.ValueError (Some "Question ID is not unique")))
    end.
Proof.
  unfold selected_question. rewrite matching_questions_filter.
  destruct (matching_questions self qs) as [|q [|q' l]]; reflexivity.
Qed.

Lemma matching_none (self : block) qs :
  matching_questions self qs = [] <->
  Forall (fun q => Some (ReviewQuestion.question_id q) <> question_id self) qs.
Proof.
  unfold matching_questions.
  induction qs as [|q qs IH]; [split; [constructor | reflexivity]|].
  rewrite filter_cons. destruct (decide _) as [Hd|Hd].
  - split; [discriminate | intros H; inversion H; contradiction].
  - rewrite IH. split; [intros H; constructor; assumption | intros H; now inversion H].
Qed.

Lemma matching_one (self : block) qs q :
  matching_questions self qs = [q] ->
  q ∈ qs /\ Some (ReviewQuestion.question_id q) = question_id self
  /\ forall q', q' ∈ qs -> Some (ReviewQuestion.question_id q') = question_id self ->
                q' = q.
Proof.
  intros Hq.
  assert (Hin : forall q', q' ∈ matching_questions self qs <->
                           Some (ReviewQuestion.question_id q') = question_id self /\ q' ∈ qs)
    by (intros q'; unfold matching_questions;
        apply (list_elem_of_filter
                 (fun q => Some (ReviewQuestion.question_id q) = question_id self))).
  rewrite Hq in Hin.
  destruct (proj1 (Hin q) ltac:(apply list_elem_of_singleton; reflexivity)) as [H1 H2].
  repeat split; try assumption.
  intros q' Hq' Hid. apply list_elem_of_singleton. apply Hin. auto.
Qed.

Lemma selected_some (self : block) qs q :
  Py.result (selected_question self qs) = inr (Some q) -> matching_questions self qs = [q].
Proof.
  rewrite selected_question_cases.
  destruct (matching_questions self qs) as [|q0 [|q' l]]; cbn [Py.result];
    intros H; try discriminate; congruence.
Qed.

(** X12. The property [question] returns a question exactly when one
    question of the activity carries the block's question id, and then that
    one; it returns [None] exactly when none does, and raises
    [Question ID is not unique] exactly when two or more do. *)
Theorem selected_question_is_the_unique_match (self : block) qs :
  (forall q, Py.result (selected_question self qs) = inr (Some q) <->
             matching_questions self qs = [q])
  /\ (Py.result (selected_question self qs) = inr None <->
      Forall (fun q => Some (ReviewQuestion.question_id q) <> question_id self) qs)
  /\ (Py.result (selected_question self qs)
        = inl (Py.Exn Py.ValueError (Some "Question ID is not unique"))
      <-> (2 <= length (matching_questions self qs))%nat)
  /\ (forall q, Py.result (selected_question self qs) = inr (Some q) ->
        q ∈ qs /\ Some (ReviewQuestion.question_id q) = question_id self
        /\ forall q', q' ∈ qs -> Some (ReviewQuestion.question_id q') = question_id self ->
                      q' = q).
Proof.
  rewrite selected_question_cases.
  pose proof (matching_none self qs) as Hnone.
  pose proof (matching_one self qs) as Hone.
  split; [|split; [|split]].
  - intros q0.
    destruct (matching_questions self qs) as [|q [|q' l]]; cbn [Py.result];
      split; intros H; try discriminate; congruence.
  - rewrite <- Hnone.
    destruct (matching_questions self qs) as [|q [|q' l]]; cbn [Py.result];
      split; intros H; try discriminate; reflexivity.
  - destruct (matching_questions self qs) as [|q [|q' l]]; cbn [Py.result length];
      split; intros H; try discriminate; try lia; reflexivity.
  - intros q0 H. apply Hone.
    destruct (matching_questions self qs) as [|q [|q' l]]; cbn [Py.result] in H;
      try discriminate. congruence.
Qed.

Lemma selected_one (self : block) qs q :
  matching_questions self qs = [q] ->
  Py.result (selected_question self qs) = inr (Some q).
Proof. intros H. now rewrite selected_question_cases, H. Qed.

(** X13. The student view of a feedback display returns exactly when one
    question of the activity carries the block's question id; with none it
    raises [No question selected], with several [Question ID is not unique],
    in both cases before any call or log. *)
Theorem student_view_needs_one_question (self : block) qs api context :
  (Py.returned (student_view self qs api context)
   <-> exists q, matching_questions self qs = [q])
  /\ (matching_questions self qs = [] ->
      student_view self qs api context
      = Py.Outcome [] (inl (Py.Exn Py.ValueError (Some "No question selected"))))
  /\ ((2 <= length (matching_questions self qs))%nat ->
      student_view self qs api context
      = Py.Outcome [] (inl (Py.Exn Py.ValueError (Some "Question ID is not unique")))).
Proof.
  assert (Hnone : matching_questions self qs = [] ->
            student_view self qs api context
            = Py.Outcome [] (inl (Py.Exn Py.ValueError (Some "No question selected")))).
  { intros H. unfold student_view. now rewrite selected_question_cases, H. }
  assert (Hmany : (2 <= length (matching_questions self qs))%nat ->
            student_view self qs api context
            = Py.Outcome [] (inl (Py.Exn Py.ValueError (Some "Question ID is not unique")))).
  { intros H. unfold student_view. rewrite selected_question_cases.
    destruct (matching_questions self qs) as [|q [|q' l]]; simpl in H; try lia.
    reflexivity. }
  split; [|split; assumption].
  split.
  - intros [f Hf].
    destruct (matching_questions self qs) as [|q [|q' l]] eqn:Hm.
    + rewrite (Hnone eq_refl) in Hf. discriminate.
    + eauto.
    + rewrite Hmany in Hf by (simpl; lia). discriminate.
  - intros [q Hq]. exact (student_view_returns self qs api context q (selected_one self qs q Hq)).
Qed.

(** X14. With [show_mean] off the view converts nothing and logs nothing,
    and the template gets a [mean] only if the caller's context has one. *)
Theorem no_mean_unless_asked (self : block) qs api context q :
  Py.result (selected_question self qs) = inr (Some q) ->
  show_mean self = false ->
  Py.trace (student_view self qs api context) = []
  /\ rendered (student_view self qs api context) "mean" = context !! "mean".
Proof.
  intros Hsel Hshow. rewrite (student_view_outcome self qs api context q Hsel), Hshow.
  split; [reflexivity|].
  unfold rendered. cbn [Py.result page].
  apply lookup_union_l. unfold base_context. by simplify_map_eq.
Qed.

(** X15. Every entry of the caller's context reaches the template as it is,
    also under the keys the view computes itself ([feedback], [mean],
    [question_title], [assessment]). *)
Theorem caller_context_wins (self : block) qs api context q key v :
  Py.result (selected_question self qs) = inr (Some q) ->
  context !! key = Some v ->
  rendered (student_view self qs api context) key = Some v.
Proof.
  intros Hsel Hkey. rewrite (student_view_outcome self qs api context q Hsel).
  unfold rendered. destruct (show_mean self); cbn [Py.result page];
    now apply lookup_union_Some_l.
Qed.

Lemma app_cons_neq {A} (l l' : list A) (x : A) : l ++ x :: l' <> l.
Proof.
  intros H. apply (f_equal (@length A)) in H. rewrite length_app in H. simpl in H. lia.
Qed.

(** X16. [validate] adds no message exactly when the question id is
    non-empty and one question carries it, and then the student view returns.
    With no matching question it adds [Selected question not found], after
    [No question selected] when the id is empty or [None]; a question found
    under an empty id still gets [No question selected]; with several
    matching questions [validate] raises. *)
Theorem validate_reports_selection (self : block) qs base :
  (Py.result (validate self qs base) = inr base
   <-> ReviewQuestion.truthy (question_id self) = true
       /\ exists q, matching_questions self qs = [q])
  /\ (matching_questions self qs = [] ->
      Py.result (validate self qs base)
      = inr (if ReviewQuestion.truthy (question_id self)
             then base ++ [Error "Selected question not found"]
             else (base ++ [Error "No question selected"])
                  ++ [Error "Selected question not found"]))
  /\ (forall q, matching_questions self qs = [q] ->
      ReviewQuestion.truthy (question_id self) = false ->
      Py.result (validate self qs base) = inr (base ++ [Error "No question selected"]))
  /\ ((2 <= length (matching_questions self qs))%nat ->
      Py.result (validate self qs base)
      = inl (Py.Exn Py.ValueError (Some "Question ID is not unique")))
  /\ (forall api context,
      Py.result (validate self qs base) = inr base ->
      Py.returned (student_view self qs api context)).
Proof.
  assert (Hclean : Py.result (validate self qs base) = inr base ->
            ReviewQuestion.truthy (question_id self) = true
            /\ exists q, matching_questions self qs = [q]).
  { unfold validate. rewrite selected_question_cases.
    destruct (matching_questions self qs) as [|q [|q' l]];
      destruct (ReviewQuestion.truthy (question_id self)); cbn;
      intros H; try discriminate; try (split; [reflexivity | eauto]; fail);
      exfalso; injection H as H.
    - destruct (app_cons_neq _ _ _ H).
    - rewrite <- app_assoc in H. destruct (app_cons_neq _ _ _ H).
    - destruct (app_cons_neq _ _ _ H). }
  split; [|split; [|split; [|split]]].
  - split; [exact Hclean|].
    intros [Ht [q Hq]]. unfold validate. now rewrite selected_question_cases, Hq, Ht.
  - intros Hm. unfold validate. rewrite selected_question_cases, Hm.
    now destruct (ReviewQuestion.truthy (question_id self)).
  - intros q Hq Ht. unfold validate. now rewrite selected_question_cases, Hq, Ht.
  - intros Hm. unfold validate. rewrite selected_question_cases.
    destruct (matching_questions self qs) as [|q [|q' l]]; simpl in Hm; try lia.
    reflexivity.
  - intros api context H. destruct (Hclean H) as [_ [q Hq]].
    exact (student_view_returns self qs api context q (selected_one self qs q Hq)).
Qed.

(** X17. With no matching question the author view returns the text
    [Question is not selected] where the student view raises; with one it
    returns the fragment of the student view, with the same log; with
    several it raises [Question ID is not unique]. *)
Theorem author_view_without_question (self : block) qs api context :
  (matching_questions self qs = [] ->
     author_view self qs api context
     = Py.Outcome [] (inr (Plain "Question is not selected")))
  /\ (forall q, matching_questions self qs = [q] ->
      exists f,
        student_view self qs api context
          = Py.Outcome (Py.trace (student_view self qs api context)) (inr f)
        /\ author_view self qs api context
          = Py.Outcome (Py.trace (student_view self qs api context)) (inr (Rendered f)))
  /\ ((2 <= length (matching_questions self qs))%nat ->
      author_view self qs api context
      = Py.Outcome [] (inl (Py.Exn Py.ValueError (Some "Question ID is not unique")))).
Proof.
  split; [|split].
  - intros Hm. unfold author_view. now rewrite selected_question_cases, Hm.
  - intros q Hq.
    destruct (student_view_returns self qs api context q (selected_one self qs q Hq))
      as [f Hf].
    exists f. unfold author_view. rewrite selected_question_cases, Hq, bind_inr.
    destruct (student_view self qs api context) as [t r]. simpl in Hf. subst r.
    split; [reflexivity|]. rewrite bind_inr. simpl. now rewrite app_nil_r.
  - intros Hm. unfold author_view. rewrite selected_question_cases.
    destruct (matching_questions self qs) as [|q [|q' l]]; simpl in Hm; try lia.
    reflexivity.
Qed.

(** X18. The options of the question selector are the not-selected option,
    of value [None], followed by one option per question of the activity in
    order; the option of the selected question is among them, and a block
    at the default value selects no question. *)
Theorem selector_offers_every_question (qs : list ReviewQuestion.block) :
  map snd (question_ids_values_provider qs)
  = None :: map (fun q => Some (ReviewQuestion.question_id q)) qs
  /\ (forall self q,
      Py.result (selected_question self qs) = inr (Some q) ->
      (ReviewQuestion.title q, question_id self) ∈ question_ids_values_provider qs)
  /\ (forall self,
      question_id self = None ->
      ("--- Not selected ---", question_id self) ∈ question_ids_values_provider qs
      /\ Py.result (selected_question self qs) = inr None).
Proof.
  split; [|split].
  - unfold question_ids_values_provider. simpl. now rewrite map_map.
  - intros self q Hsel.
    destruct (matching_one self qs q (selected_some self qs q Hsel)) as (Hin & Hid & _).
    unfold question_ids_values_provider. rewrite <- Hid.
    apply elem_of_app. right.
    apply (list_elem_of_fmap_2
             (fun question => (ReviewQuestion.title question,
                               Some (ReviewQuestion.question_id question))) qs q Hin).
  - intros self Hself. rewrite Hself. split.
    + unfold question_ids_values_provider. apply elem_of_app. left.
      apply list_elem_of_singleton. reflexivity.
    + rewrite selected_question_cases.
      assert (Hm : matching_questions self qs = []).
      { apply matching_none, Forall_forall. intros q _. now rewrite Hself. }
      now rewrite Hm.
Qed.

End FeedbackMore.

Lemma no_mean_unless_asked_witness :
  Py.trace (FeedbackDisplay.student_view MoreSamples.quiet_display [Sample.score_question]
              Sample.mixed_reviews Sample.no_context) = []
  /\ FeedbackDisplay.rendered
       (FeedbackDisplay.student_view MoreSamples.quiet_display [Sample.score_question]
          Sample.mixed_reviews Sample.no_context) "mean" = None.
Proof.
  exact (no_mean_unless_asked MoreSamples.quiet_display [Sample.score_question]
           Sample.mixed_reviews Sample.no_context Sample.score_question eq_refl eq_refl).
Defined.

Lemma caller_context_wins_witness :
  FeedbackDisplay.rendered
    (FeedbackDisplay.student_view Sample.team_display [Sample.score_question]
       Sample.numeric_reviews MoreSamples.own_mean) "mean" = Some (Py.VStr "9.9").
Proof.
  exact (caller_context_wins Sample.team_display [Sample.score_question]
           Sample.numeric_reviews MoreSamples.own_mean Sample.score_question
           "mean" (Py.VStr "9.9") eq_refl eq_refl).
Defined.

(** ** Static content blocks *)

Section StaticContentFacts.

Import StaticContent.

Variable submissions_category : string.
Variable resources_category : string.
Variable get_link_to_block : target -> string.


Lemma find_target_navigator (self : block) (st : option stage) :
  find_target self st =
    match navigator_of st, st ≫= stage_activity with
    | Some navigator, Some activity =>
        match get_child_of_category navigator (TARGET_PROJECT_NAVIGATOR_VIEW self) with
        | Some target_block => Some (activity, target_block)
        | None => None
        end
    | _, _ => None
    end.
Proof.
  unfold find_target, navigator_of.
  destruct st as [[[[name [[[nav|]]|]]|]]|]; reflexivity.
Qed.

(** X19. A static content block returns the empty fragment, raising
    nothing, when a link of the chain stage, activity, project, navigator is
    missing or the navigator has no child of the target category; with
    every link and the child there, the target is found. *)
Theorem static_content_without_target (self : block) (st : option stage)
    (context : gmap string View.tval) :
  (navigator_of st = None ->
     student_view get_link_to_block self st context = Py.Outcome [] (inr View.Fragment))
  /\ (forall navigator,
        navigator_of st = Some navigator ->
        get_child_of_category navigator (TARGET_PROJECT_NAVIGATOR_VIEW self) = None ->
        student_view get_link_to_block self st context = Py.Outcome [] (inr View.Fragment))
  /\ (forall navigator target_block,
        navigator_of st = Some navigator ->
        get_child_of_category navigator (TARGET_PROJECT_NAVIGATOR_VIEW self)
          = Some target_block ->
        exists activity, find_target self st = Some (activity, target_block)).
Proof.
  unfold student_view. rewrite find_target_navigator.
  split; [|split].
  - now intros ->.
  - intros navigator -> Hchild. rewrite Hchild. now destruct (st ≫= stage_activity).
  - intros navigator target_block Hnav Hchild. rewrite Hnav, Hchild.
    destruct st as [[[activity|]]|]; try discriminate. simpl. eauto.
Qed.


End StaticContentFacts.

(** ** Selectors *)

Section SelectorFacts.

Import Selector.

Variable local_resource_url : string -> string.

(** X21. The author view of the peer selector does not depend on the team
    of the stage: the template gets the peers of the caller's context or else
    Jack and Jill, and [demo] true unless the context says otherwise. The
    student view shows the team unless the context has [peers]. *)
Theorem peer_author_view_ignores_team (context : gmap string View.tval) :
  (forall team team',
     peer_author_view local_resource_url team context
     = peer_author_view local_resource_url team' context)
  /\ (forall team,
        View.template_value (peer_author_view local_resource_url team context) "peers"
        = Some (default (View.TPeers fake_peers) (context !! "peers")))
  /\ (forall team,
        View.template_value (peer_author_view local_resource_url team context) "demo"
        = Some (default (View.TBool true) (context !! "demo")))
  /\ (forall team,
        View.template_value (peer_student_view local_resource_url team context) "peers"
        = Some (default (View.TPeers team) (context !! "peers"))).
Proof.
  assert (Hpeers : forall team,
            View.template_value (peer_author_view local_resource_url team context) "peers"
            = Some (default (View.TPeers fake_peers) (context !! "peers"))).
  { intros team. unfold peer_author_view, peer_student_view, View.template_value, View.update.
    simpl. rewrite !lookup_union.
    destruct (context !! "peers"); by simplify_map_eq. }
  split; [|split; [exact Hpeers|split]].
  - intros team team'.
    unfold peer_author_view, peer_student_view, View.update, View.add_content. simpl.
    do 3 f_equal. apply map_eq. intros key. rewrite !lookup_union.
    destruct (decide (key = "peers")) as [->|Hkey].
    + destruct (context !! "peers"); by simplify_map_eq.
    + by simplify_map_eq.
  - intros team. unfold peer_author_view, peer_student_view, View.template_value, View.update.
    simpl. rewrite !lookup_union.
    destruct (context !! "demo"); by simplify_map_eq.
  - intros team. unfold peer_student_view, View.template_value, View.update.
    simpl. rewrite !lookup_union.
    destruct (context !! "peers"); by simplify_map_eq.
Qed.

(** X22. The author view of the group selector does not depend on the
    review groups of the stage: the template gets the groups of the caller's
    context or else the two sample groups. The student view shows the review
    groups unless the context has [groups]. *)
Theorem group_author_view_ignores_groups (context : gmap string View.tval) :
  (forall groups groups',
     group_author_view local_resource_url groups context
     = group_author_view local_resource_url groups' context)
  /\ (forall groups,
        View.template_value (group_author_view local_resource_url groups context) "groups"
        = Some (default (View.TGroups fake_groups) (context !! "groups")))
  /\ (forall groups,
        View.template_value (group_student_view local_resource_url groups context) "groups"
        = Some (default (View.TGroups groups) (context !! "groups"))).
Proof.
  split; [|split].
  - intros groups groups'.
    unfold group_author_view, group_student_view, View.update, View.add_content. simpl.
    do 3 f_equal. apply map_eq. intros key. rewrite !lookup_union.
    destruct (decide (key = "groups")) as [->|Hkey].
    + destruct (context !! "groups"); by simplify_map_eq.
    + by simplify_map_eq.
  - intros groups.
    unfold group_author_view, group_student_view, View.template_value, View.update.
    simpl. rewrite !lookup_union.
    destruct (context !! "groups"); by simplify_map_eq.
  - intros groups. unfold group_student_view, View.template_value, View.update.
    simpl. rewrite !lookup_union.
    destruct (context !! "groups"); by simplify_map_eq.
Qed.

End SelectorFacts.
